(** * The cache-or-fetch layer of [src/ds/data.py]

    A shallow embedding of the five accessors of [data.py]
    ([get_stock_data], [get_company_financials], [get_company_info],
    [get_quarterly_financials], [get_holders_and_recommendations]) and of
    [get_treasury_yield], followed by the properties of the read-through
    cache they implement.

    What the Python code does itself is written out: the file names it
    formats, the [use_cache and cache_file.exists()] test, the order of the
    remote call, the emptiness test and the write, the loop over the
    sub-kinds of a bundle, the [try/except] around the header reparse.
    What it delegates to pandas, json and yfinance (the text of a CSV or
    JSON document, the parse of such a text, [pd.to_datetime], column
    selection, the answers of the remote provider) is a variable of the
    section [Data]; so is [RAW_DATA_DIR], which [data.py] imports from the
    module [paths].  The [print] calls are left out: they write to the
    standard output only.

    Of [src/ds/plots.py], which draws the figures, the confidence score of
    [executive_dashboard_gauges] is embedded, on binary64 floats. *)

From Stdlib Require Import Ascii String Floats.
From stdpp Require Import base option list strings gmap.

(** ** Exceptions and results *)

(** The exceptions that can cross the code.  All of them derive from Python's
    [Exception], which is what the [except Exception] clauses catch. *)
Inductive Exc : Type :=
  | KeyError
  | IndexError
  | ValueError
  | AttributeError
  | OSError
  | FileNotFoundError
  | ParserError
  | JSONDecodeError
  | ProviderError (msg : string).

Inductive Result (A : Type) : Type :=
  | Ok (a : A)
  | Raise (e : Exc).
Arguments Ok {A} a.
Arguments Raise {A} e.

Definition result_map {A B} (f : A → B) (r : Result A) : Result B :=
  match r with Ok a => Ok (f a) | Raise e => Raise e end.

Definition result_bind {A B} (r : Result A) (k : A → Result B) : Result B :=
  match r with Ok a => k a | Raise e => Raise e end.

(** ** Paths: [pathlib.PurePosixPath]

    A path is its root (the empty string, one slash or two) and its
    components.  [parse_path] is what the constructor does with a string
    and [joinpath] is the [/] operator. *)

Record Path : Type := MkPath { anchor : string; parts : list string }.

Definition sep : ascii := "/"%char.

(** [str.split("/")] *)
Fixpoint split_sep (s : string) : list string :=
  match s with
  | EmptyString => [EmptyString]
  | String c s' =>
      if Ascii.eqb c sep then EmptyString :: split_sep s'
      else match split_sep s' with
           | [] => [String c EmptyString]
           | h :: t => String c h :: t
           end
  end.

(** [posixpath.splitroot], without the drive, which is always empty:
    a single leading slash or three and more are the root ["/"], exactly two
    are the root ["//"]. *)
Definition splitroot (p : string) : string * string :=
  match p with
  | String c0 r0 =>
      if Ascii.eqb c0 sep then
        match r0 with
        | String c1 r1 =>
            if Ascii.eqb c1 sep then
              match r1 with
              | String c2 _ => if Ascii.eqb c2 sep then ("/", r0) else ("//", r1)
              | EmptyString => ("//", r1)
              end
            else ("/", r0)
        | EmptyString => ("/", r0)
        end
      else ("", p)
  | EmptyString => ("", p)
  end.

(** A component is kept when it is neither empty nor a single dot. *)
Definition keep_part (x : string) : bool :=
  negb (String.eqb x "") && negb (String.eqb x ".").

Definition parse_path (s : string) : Path :=
  let '(root, rel) := splitroot s in
  MkPath root (filter (λ x, Is_true (keep_part x)) (split_sep rel)).

(** [p / s]: a segment with a root replaces what is on its left. *)
Definition joinpath (p : Path) (s : string) : Path :=
  let q := parse_path s in
  if String.eqb (anchor q) "" then MkPath (anchor p) (parts p ++ parts q)
  else q.

Global Instance Path_eq_dec : EqDecision Path.
Proof. solve_decision. Defined.

Global Instance Path_countable : Countable Path.
Proof.
  refine (inj_countable' (λ p, (anchor p, parts p)) (λ x, MkPath x.1 x.2) _).
  by intros [].
Defined.

(** ** Tables: the part of [pandas.DataFrame] the code looks at *)

(** A label of a row or of a column: a string, an integer or a point in
    time. *)
Inductive Label : Type :=
  | LStr (s : string)
  | LInt (z : Z)
  | LDate (t : Z).

(** An axis is a flat [Index] or a [MultiIndex] of [nlevels] levels whose
    entries are tuples of labels. *)
Inductive Axis : Type :=
  | Index (labels : list Label)
  | MultiIndex (nlevels : nat) (tuples : list (list Label)).

(** A value of a table; [CFloat m e] is the float that is [m] times two to
    the [e]. *)
Inductive Cell : Type :=
  | CNaN
  | CInt (z : Z)
  | CFloat (m e : Z)
  | CStr (s : string)
  | CBool (b : bool).

(** A table: the labels of its rows, the labels of its columns, its values
    row by row. *)
Record DataFrame : Type := MkFrame {
  index : Axis;
  columns : Axis;
  data : list (list Cell)
}.

Definition axis_len (a : Axis) : nat :=
  match a with
  | Index labels => length labels
  | MultiIndex _ tuples => length tuples
  end.

(** [df.empty]: true when one of the two axes has length zero. *)
Definition empty (df : DataFrame) : bool :=
  (axis_len (index df) =? 0)%nat || (axis_len (columns df) =? 0)%nat.

(** [pd.DataFrame()] *)
Definition DataFrame_new : DataFrame := MkFrame (Index []) (Index []) [].

Definition is_MultiIndex (a : Axis) : bool :=
  match a with Index _ => false | MultiIndex _ _ => true end.

(** [axis.droplevel(1)]: there must be a level 1 to drop and a level must be
    left; with one level left the result is a flat index. *)
Definition droplevel1 (a : Axis) : Result Axis :=
  match a with
  | Index _ => Raise IndexError
  | MultiIndex n tuples =>
      if (n <=? 1)%nat then Raise IndexError
      else if (n =? 2)%nat then Ok (Index (map (λ t, List.hd (LStr "") t) tuples))
      else Ok (MultiIndex (n - 1) (map (λ t, take 1 t ++ drop 2 t) tuples))
  end.

(** [df.columns = cols]: refused when the number of labels changes. *)
Definition set_columns (df : DataFrame) (cols : Axis) : Result DataFrame :=
  if (axis_len cols =? axis_len (columns df))%nat
  then Ok (MkFrame (index df) cols (data df))
  else Raise ValueError.

(** What [df[key]] can be: one column, or a frame when several match. *)
Inductive Selection : Type :=
  | SelSeries (idx : Axis) (name : Label) (vals : list Cell)
  | SelFrame (df : DataFrame).

(** ** JSON documents: the values of [t.info] *)

#[local] Unset Elimination Schemes.
Inductive Json : Type :=
  | JNull
  | JBool (b : bool)
  | JInt (z : Z)
  | JFloat (m e : Z)
  | JStr (s : string)
  | JList (l : list Json)
  | JDict (d : list (string * Json)).
#[local] Set Elimination Schemes.

(** Truth value of a dict: it has an item. *)
Definition truthy {A} (d : list A) : bool :=
  match d with [] => false | _ :: _ => true end.

(** ** The world: cache directory and remote provider *)

Inductive Request : Type :=
  | Download (ticker start : string) (end_ : option string)
  | GetAttr (ticker attr : string)
  | GetInfo (ticker : string).

(** What the provider hands back; [RTable None] is Python's [None]. *)
Inductive Reply : Type :=
  | RTable (df : option DataFrame)
  | RInfo (d : list (string * Json)).

(** The remote calls made so far, oldest first, each with its outcome. *)
Definition History : Type := list (Request * Result Reply).

(** [files] is the content of the file system, [denied] the paths that
    cannot be opened for writing (missing directory, permissions, full
    disk), [calls] the log of remote calls. *)
Record World : Type := MkWorld {
  files : gmap Path string;
  denied : gset Path;
  calls : History
}.

Definition set_files (f : gmap Path string) (w : World) : World :=
  MkWorld f (denied w) (calls w).

Definition log_call (c : Request * Result Reply) (w : World) : World :=
  MkWorld (files w) (denied w) (calls w ++ [c]).

(** ** A state and exception monad

    A computation takes the world and gives a result or an exception,
    and the world as it left it: what was written before an exception was
    raised stays written. *)
Definition M (A : Type) : Type := World → Result A * World.

Global Instance M_ret : MRet M := λ A a w, (Ok a, w).

Global Instance M_bind : MBind M := λ A B k m w,
  match m w with
  | (Ok a, w') => k a w'
  | (Raise e, w') => (Raise e, w')
  end.

Definition lift {A} (r : Result A) : M A := λ w, (r, w).

(** [p.exists()] *)
Definition path_exists (p : Path) : M bool :=
  λ w, (Ok (bool_decide (is_Some (files w !! p))), w).

(** Reading the text of a file. *)
Definition read_text (p : Path) : M string :=
  λ w, match files w !! p with
       | Some s => (Ok s, w)
       | None => (Raise FileNotFoundError, w)
       end.

(** Opening a file for writing and writing a text to it: the file is
    created or replaced; nothing is written when the open fails. *)
Definition write_text (p : Path) (s : string) : M unit :=
  λ w, if decide (p ∈ denied w) then (Raise OSError, w)
       else (Ok (), set_files (<[p := s]> (files w)) w).

(** [for x in l: s = body(s, x)] *)
Fixpoint for_each {A S : Type} (body : S → A → M S) (l : list A) (s : S) : M S :=
  match l with
  | [] => mret s
  | x :: l' => s' ← body s x; for_each body l' s'
  end.

(** ** The accessors of [data.py] *)

Section Data.

(** [RAW_DATA_DIR], from the module [paths]. *)
Variable RAW_DATA_DIR : Path.

(** The remote provider.  [yf_download h ticker start end_] is the answer of
    [yf.download(ticker, start=start, end=end, ...)] when [h] is the list of
    the calls made before; [yf_attr h ticker attr] the one of
    [getattr(yf.Ticker(ticker), attr)], where [None] is Python's [None];
    [yf_info h ticker] the one of [yf.Ticker(ticker).info]. *)
Variable yf_download : History → string → string → option string → Result DataFrame.
Variable yf_attr : History → string → string → Result (option DataFrame).
Variable yf_info : History → string → Result (list (string * Json)).

(** pandas and json.  [to_csv_text index df] is the text [df.to_csv(f,
    index=index)] writes; [read_csv_text index_col parse_dates s] is what
    [pd.read_csv] makes of a file whose text is [s]; [json_dumps indent v] is
    the text [json.dump(v, f, indent=indent)] writes and [json_loads] the
    value [json.load] reads. *)
Variable to_csv_text : bool → DataFrame → string.
Variable read_csv_text : option nat → bool → string → Result DataFrame.
Variable to_datetime : Axis → Result Axis.
Variable getitem : DataFrame → string → Result Selection.
Variable json_dumps : nat → Json → string.
Variable json_loads : string → Result Json.

(** *** Remote calls: each one is logged with its outcome

    [t = yf.Ticker(ticker)] builds a handle and makes no call of its own;
    the calls are the attribute reads [getattr(t, yf_attr)] and [t.info]. *)

Definition download (ticker start : string) (end_ : option string) : M DataFrame :=
  λ w, let r := yf_download (calls w) ticker start end_ in
       (r, log_call (Download ticker start end_, result_map (λ df, RTable (Some df)) r) w).

Definition getattr (ticker attr : string) : M (option DataFrame) :=
  λ w, let r := yf_attr (calls w) ticker attr in
       (r, log_call (GetAttr ticker attr, result_map RTable r) w).

Definition ticker_info (ticker : string) : M (list (string * Json)) :=
  λ w, let r := yf_info (calls w) ticker in
       (r, log_call (GetInfo ticker, result_map RInfo r) w).

(** *** Files *)

(** [pd.read_csv(p, index_col=.., parse_dates=..)] *)
Definition read_csv (p : Path) (index_col : option nat) (parse_dates : bool)
  : M DataFrame :=
  s ← read_text p; lift (read_csv_text index_col parse_dates s).

(** [df.to_csv(p, index=..)] *)
Definition to_csv (df : DataFrame) (p : Path) (index : bool) : M unit :=
  write_text p (to_csv_text index df).

(** [use_cache and cache_file.exists()]: the file system is not looked at
    when [use_cache] is false. *)
Definition cache_hit (use_cache : bool) (cache_file : Path) : M bool :=
  if use_cache then path_exists cache_file else mret false.

(** *** [get_stock_data] *)

Definition stock_cache_file (ticker : string) : Path :=
  joinpath RAW_DATA_DIR (ticker +:+ ".csv").

(** [if isinstance(df.columns, pd.MultiIndex):
       df.columns = df.columns.droplevel(1)] *)
Definition flatten_columns (df : DataFrame) : Result DataFrame :=
  if is_MultiIndex (columns df)
  then result_bind (droplevel1 (columns df)) (set_columns df)
  else Ok df.

Definition get_stock_data (ticker start : string) (end_ : option string)
    (use_cache : bool) : M DataFrame :=
  let cache_file := stock_cache_file ticker in
  hit ← cache_hit use_cache cache_file;
  if hit : bool then read_csv cache_file (Some 0%nat) true
  else
    df ← download ticker start end_;
    df ← lift (flatten_columns df);
    (if negb (empty df) then to_csv df cache_file true else mret ());;
    mret df.

(** *** [get_company_financials] *)

Definition financials_types : list (string * string) :=
  [("income_stmt", "financials");
   ("balance_sheet", "balance_sheet");
   ("cashflow", "cashflow")].

Definition financials_cache_file (ticker name : string) : Path :=
  joinpath RAW_DATA_DIR (ticker +:+ "_" +:+ name +:+ ".csv").

(** [try: df.columns = pd.to_datetime(df.columns)
     except Exception: pass] *)
Definition reparse_headers (df : DataFrame) : DataFrame :=
  match result_bind (to_datetime (columns df)) (set_columns df) with
  | Ok df' => df'
  | Raise _ => df
  end.

(** One turn of the loop over [types.items()]. *)
Definition financials_item (ticker : string) (use_cache : bool)
    (financials : gmap string DataFrame) (item : string * string)
  : M (gmap string DataFrame) :=
  let '(name, yf_attr_name) := item in
  let cache_file := financials_cache_file ticker name in
  hit ← cache_hit use_cache cache_file;
  if hit : bool then
    df ← read_csv cache_file (Some 0%nat) false;
    mret (<[name := reparse_headers df]> financials)
  else
    df ← getattr ticker yf_attr_name;
    match df with
    | None => lift (Raise AttributeError)
    | Some df =>
        (if negb (empty df) then to_csv df cache_file true else mret ());;
        mret (<[name := df]> financials)
    end.

Definition get_company_financials (ticker : string) (use_cache : bool)
  : M (gmap string DataFrame) :=
  for_each (financials_item ticker use_cache) financials_types ∅.

(** *** [get_company_info] *)

Definition info_cache_file (ticker : string) : Path :=
  joinpath RAW_DATA_DIR (ticker +:+ "_info.json").

Definition get_company_info (ticker : string) (use_cache : bool) : M Json :=
  let cache_file := info_cache_file ticker in
  hit ← cache_hit use_cache cache_file;
  if hit : bool then
    s ← read_text cache_file; lift (json_loads s)
  else
    info ← ticker_info ticker;
    (if truthy info then write_text cache_file (json_dumps 4 (JDict info))
     else mret ());;
    mret (JDict info).

(** *** [get_quarterly_financials] *)

Definition quarterly_types : list (string * string) :=
  [("income_stmt", "quarterly_financials");
   ("balance_sheet", "quarterly_balance_sheet");
   ("cashflow", "quarterly_cashflow")].

Definition quarterly_cache_file (ticker name : string) : Path :=
  joinpath RAW_DATA_DIR (ticker +:+ "_quarterly_" +:+ name +:+ ".csv").

Definition quarterly_item (ticker : string) (use_cache : bool)
    (financials : gmap string DataFrame) (item : string * string)
  : M (gmap string DataFrame) :=
  let '(name, yf_attr_name) := item in
  let cache_file := quarterly_cache_file ticker name in
  hit ← cache_hit use_cache cache_file;
  if hit : bool then
    df ← read_csv cache_file (Some 0%nat) false;
    mret (<[name := reparse_headers df]> financials)
  else
    df ← getattr ticker yf_attr_name;
    match df with
    | None => lift (Raise AttributeError)
    | Some df =>
        (if negb (empty df) then to_csv df cache_file true else mret ());;
        mret (<[name := df]> financials)
    end.

Definition get_quarterly_financials (ticker : string) (use_cache : bool)
  : M (gmap string DataFrame) :=
  for_each (quarterly_item ticker use_cache) quarterly_types ∅.

(** *** [get_holders_and_recommendations] *)

Definition holders_types : list (string * string) :=
  [("institutional_holders", "institutional_holders");
   ("major_holders", "major_holders");
   ("recommendations", "recommendations")].

Definition holders_cache_file (ticker name : string) : Path :=
  joinpath RAW_DATA_DIR (ticker +:+ "_" +:+ name +:+ ".csv").

Definition holders_item (ticker : string) (use_cache : bool)
    (data : gmap string DataFrame) (item : string * string)
  : M (gmap string DataFrame) :=
  let '(name, yf_attr_name) := item in
  let cache_file := holders_cache_file ticker name in
  hit ← cache_hit use_cache cache_file;
  if hit : bool then
    df ← read_csv cache_file None false;
    mret (<[name := df]> data)
  else
    df ← getattr ticker yf_attr_name;
    match df with
    | Some df =>
        if negb (empty df) then
          to_csv df cache_file false;;
          mret (<[name := df]> data)
        else mret (<[name := DataFrame_new]> data)
    | None => mret (<[name := DataFrame_new]> data)
    end.

Definition get_holders_and_recommendations (ticker : string) (use_cache : bool)
  : M (gmap string DataFrame) :=
  for_each (holders_item ticker use_cache) holders_types ∅.

(** *** [get_treasury_yield] *)

Definition get_treasury_yield (ticker start : string) (end_ : option string)
    (use_cache : bool) : M Selection :=
  df ← get_stock_data ticker start end_ use_cache;
  lift (getitem df "Close").

(** *** Calls that leave arguments out

    [None] stands for an argument the caller does not give: it takes the
    default of the [def] line.  The default of [end] is Python's [None],
    that of [use_cache] is [True]. *)

Definition get_stock_data_call (ticker : string) (start : option string)
    (end_ : option (option string)) (use_cache : option bool) : M DataFrame :=
  get_stock_data ticker (default "2023-01-01" start) (default None end_)
    (default true use_cache).

Definition get_treasury_yield_call (ticker : option string)
    (start : option string) (end_ : option (option string))
    (use_cache : option bool) : M Selection :=
  get_treasury_yield (default "^TNX" ticker) (default "2019-01-01" start)
    (default None end_) (default true use_cache).

End Data.

(** ** Vocabulary of the properties *)

(** Does the string hold a path separator? *)
Fixpoint has_sep (s : string) : bool :=
  match s with
  | EmptyString => false
  | String c s' => Ascii.eqb c sep || has_sep s'
  end.

(** A file-name suffix that stays in the last component of the path
    whatever is put in front of it. *)
Definition clean_suffix (s : string) : bool :=
  negb (has_sep s) && keep_part s.

(** The cache keys: an identifier and one of the five data kinds with its
    sub-kind.  [key_path] sends a key to the file the accessor of its kind
    uses for it. *)
Inductive StatementKind : Type := income_stmt | balance_sheet | cashflow.

Inductive HolderKind : Type :=
  institutional_holders | major_holders | recommendations.

Definition statement_name (k : StatementKind) : string :=
  match k with
  | income_stmt => "income_stmt"
  | balance_sheet => "balance_sheet"
  | cashflow => "cashflow"
  end.

Definition holder_name (k : HolderKind) : string :=
  match k with
  | institutional_holders => "institutional_holders"
  | major_holders => "major_holders"
  | recommendations => "recommendations"
  end.

Inductive DataKind : Type :=
  | PriceSeries
  | AnnualStatements (sub : StatementKind)
  | QuarterlyStatements (sub : StatementKind)
  | CompanyInfo
  | HoldersAndRecommendations (sub : HolderKind).

Record CacheKey : Type := MkKey { key_id : string; key_kind : DataKind }.

Definition key_path (root : Path) (k : CacheKey) : Path :=
  match key_kind k with
  | PriceSeries => stock_cache_file root (key_id k)
  | AnnualStatements sub =>
      financials_cache_file root (key_id k) (statement_name sub)
  | QuarterlyStatements sub =>
      quarterly_cache_file root (key_id k) (statement_name sub)
  | CompanyInfo => info_cache_file root (key_id k)
  | HoldersAndRecommendations sub =>
      holders_cache_file root (key_id k) (holder_name sub)
  end.

(** What a kind appends to the identifier to make the file name. *)
Definition kind_suffix (k : DataKind) : string :=
  match k with
  | PriceSeries => ".csv"
  | AnnualStatements sub => "_" +:+ statement_name sub +:+ ".csv"
  | QuarterlyStatements sub => "_quarterly_" +:+ statement_name sub +:+ ".csv"
  | CompanyInfo => "_info.json"
  | HoldersAndRecommendations sub => "_" +:+ holder_name sub +:+ ".csv"
  end.

(** A cache directory to run examples in. *)
Definition data_raw : Path := MkPath "" ["data"; "raw"].

(** The remote calls made between two worlds. *)
Definition new_calls (w w' : World) : History :=
  drop (length (calls w)) (calls w').

(** The shape the three loops over sub-kinds share: the file of a sub-kind,
    whether the table is written with its index, how the text of a cached
    file becomes the table bound to the sub-kind, and which table is bound
    to it after a remote call.  The loops of [get_company_financials],
    [get_quarterly_financials] and [get_holders_and_recommendations] are
    shown below to be instances of it. *)
Section Bundle.

Variable yf_attr : History → string → string → Result (option DataFrame).
Variable to_csv_text : bool → DataFrame → string.
Variable file : string → Path.
Variable with_index : bool.
Variable decode : string → Result DataFrame.
Variable value : option DataFrame → Result DataFrame.

Definition bundle_item (ticker : string) (use_cache : bool)
    (acc : gmap string DataFrame) (item : string * string)
  : M (gmap string DataFrame) :=
  let '(name, attr) := item in
  hit ← cache_hit use_cache (file name);
  if hit : bool then
    s ← read_text (file name);
    df ← lift (decode s);
    mret (<[name := df]> acc)
  else
    reply ← getattr yf_attr ticker attr;
    v ← lift (value reply);
    match reply with
    | Some df =>
        if negb (empty df) then to_csv to_csv_text df (file name) with_index
        else mret ()
    | None => mret ()
    end;;
    mret (<[name := v]> acc).

End Bundle.

(** After a remote call for a statement: the table itself; [None] has no
    attribute [empty]. *)
Definition statement_value (reply : option DataFrame) : Result DataFrame :=
  match reply with
  | Some df => Ok df
  | None => Raise AttributeError
  end.

(** After a remote call for a holders table: the table when there is one
    with rows and columns, a new empty table otherwise. *)
Definition holder_value (reply : option DataFrame) : Result DataFrame :=
  match reply with
  | Some df => if negb (empty df) then Ok df else Ok DataFrame_new
  | None => Ok DataFrame_new
  end.

(** A value with rows and columns is the table that came back. *)
Definition value_is_reply (value : option DataFrame → Result DataFrame) : Prop :=
  ∀ reply v, value reply = Ok v → empty v = false → reply = Some v.

(** Was a table with rows and columns handed back? *)
Definition reply_nonempty (reply : option DataFrame) : bool :=
  match reply with
  | Some df => negb (empty df)
  | None => false
  end.

(** A sub-kind is taken from the cache when [use_cache] is set and its file
    exists. *)
Definition cached (file : string → Path) (use_cache : bool) (w : World)
    (name : string) : Prop :=
  use_cache = true ∧ is_Some (files w !! file name).

(** The requests a loop over the sub-kinds [l] can make. *)
Definition requests (ticker : string) (l : list (string * string)) : list Request :=
  (λ it, GetAttr ticker it.2) <$> l.

(** What a loop over the sub-kinds [l] can have done between two worlds,
    whether it ended or raised: it made some of the remote calls of [l], in
    order and each once at most; a file differs only when it is the file
    of a sub-kind of [l] for which a table with rows and columns came back,
    and then it holds that table; under [use_cache] such a file did not
    exist before. *)
Definition loop_frame (to_csv_text : bool → DataFrame → string)
    (file : string → Path) (with_index : bool) (ticker : string)
    (use_cache : bool) (l : list (string * string)) (w w' : World) : Prop :=
  denied w' = denied w ∧
  ∃ new : History,
    calls w' = calls w ++ new ∧
    new.*1 `sublist_of` requests ticker l ∧
    ∀ q : Path,
      files w' !! q = files w !! q ∨
      ∃ name attr df,
        (name, attr) ∈ l ∧ q = file name ∧
        (GetAttr ticker attr, Ok (RTable (Some df))) ∈ new ∧
        empty df = false ∧
        files w' !! q = Some (to_csv_text with_index df) ∧
        (use_cache = true → files w !! q = None).

(** How a loop that ended resolved one sub-kind: from the cache, with no
    remote call for it and its file left as it was; or by one remote call,
    whose table is written when it has rows and columns. *)
Definition from_cache (file : string → Path) (decode : string → Result DataFrame)
    (ticker : string) (w w' : World) (b : gmap string DataFrame)
    (name attr : string) : Prop :=
  ∃ s df,
    files w !! file name = Some s ∧ decode s = Ok df ∧
    b !! name = Some df ∧
    files w' !! file name = Some s ∧
    ∀ r, (GetAttr ticker attr, r) ∉ new_calls w w'.

Definition by_fetch (to_csv_text : bool → DataFrame → string)
    (file : string → Path) (with_index : bool)
    (value : option DataFrame → Result DataFrame)
    (ticker : string) (w w' : World) (b : gmap string DataFrame)
    (name attr : string) : Prop :=
  ∃ reply v,
    (∀ r, (GetAttr ticker attr, r) ∈ new_calls w w' ↔ r = Ok (RTable reply)) ∧
    value reply = Ok v ∧
    b !! name = Some v ∧
    (reply_nonempty reply = true → file name ∉ denied w) ∧
    files w' !! file name =
      if reply_nonempty reply
      then Some (to_csv_text with_index (default DataFrame_new reply))
      else files w !! file name.

(** The table a cached statement file becomes: [pd.read_csv(cache_file,
    index_col=0)] and then the attempt to reparse the headers. *)
Definition statement_decode
    (read_csv_text : option nat → bool → string → Result DataFrame)
    (to_datetime : Axis → Result Axis) (s : string) : Result DataFrame :=
  result_map (reparse_headers to_datetime) (read_csv_text (Some 0%nat) false s).





(** What a call with [use_cache] may do to the files between two worlds:
    under [use_cache = true] a file differs only if it did not exist, exists
    now, and a remote call was made; and no file is ever removed. *)
Definition write_once (use_cache : bool) (w w' : World) : Prop :=
  ∀ q : Path,
    (use_cache = true →
     files w' !! q = files w !! q
     ∨ (files w !! q = None ∧ is_Some (files w' !! q) ∧ new_calls w w' ≠ []))
    ∧ (is_Some (files w !! q) → is_Some (files w' !! q)).

(** The [Close] column of what an accessor returns, in the world the
    accessor leaves. *)
Definition close_column (getitem : DataFrame → string → Result Selection)
    (m : M DataFrame) : M Selection :=
  λ w, let '(r, w') := m w in (result_bind r (λ df, getitem df "Close"), w').

(** ** A provider stub and a toy pandas to run the accessors on *)

Global Instance Label_eq_dec : EqDecision Label.
Proof. solve_decision. Defined.

Global Instance Axis_eq_dec : EqDecision Axis.
Proof. solve_decision. Defined.

Global Instance Cell_eq_dec : EqDecision Cell.
Proof. solve_decision. Defined.

Global Instance DataFrame_eq_dec : EqDecision DataFrame.
Proof. solve_decision. Defined.

Module Stub.

(** Two rows, 2023-01-02 and 2023-01-03 (days since 1970-01-01), with
    Close 100.0 and 101.5 (mantissa and binary exponent). *)
Definition acme_prices : DataFrame :=
  MkFrame (Index [LDate 19359; LDate 19360]) (Index [LStr "Close"])
    [[CFloat 25 2]; [CFloat 203 (-1)]].

(** The rows another start date gives. *)
Definition acme_prices_2019 : DataFrame :=
  MkFrame (Index [LDate 17898; LDate 19359; LDate 19360]) (Index [LStr "Close"])
    [[CFloat 45 1]; [CFloat 25 2]; [CFloat 203 (-1)]].

(** A statement with one line and one report date, 2023-12-31. *)
Definition acme_statement : DataFrame :=
  MkFrame (Index [LStr "Total Revenue"]) (Index [LDate 19722]) [[CInt 10]].

(** The same as a cached file gives it back: the header is a string
    again. *)
Definition acme_statement_read : DataFrame :=
  MkFrame (Index [LStr "Total Revenue"]) (Index [LStr "2023-12-31"]) [[CInt 10]].

(** A statement whose header is no date. *)
Definition ttm_statement : DataFrame :=
  MkFrame (Index [LStr "Total Assets"]) (Index [LStr "TTM"]) [[CInt 7]].

Definition acme_holders : DataFrame :=
  MkFrame (Index [LInt 0]) (Index [LStr "Holder"; LStr "Shares"])
    [[CStr "Fund"; CInt 5]].

Definition acme_info : list (string * Json) := [("beta", JFloat 5 (-2))].

Definition prices_text : string := "Date,Close;2023-01-02,100.0;2023-01-03,101.5".
Definition prices_2019_text : string :=
  "Date,Close;2019-01-02,90.0;2023-01-02,100.0;2023-01-03,101.5".
Definition statement_text : string := ",2023-12-31;Total Revenue,10".
Definition ttm_text : string := ",TTM;Total Assets,7".
Definition holders_text : string := "Holder,Shares;Fund,5".
Definition info_text : string := "{beta: 1.25}".

(** ["ACME"] is listed, ["ZZZZ"] is delisted and gives empty tables, any
    other identifier gives nothing at all. *)
Definition yf_download (h : History) (ticker start : string)
    (end_ : option string) : Result DataFrame :=
  if String.eqb ticker "ACME" then
    if String.eqb start "2023-01-01" then Ok acme_prices else Ok acme_prices_2019
  else Ok DataFrame_new.

Definition yf_attr (h : History) (ticker attr : string)
  : Result (option DataFrame) :=
  if String.eqb ticker "ACME" then
    if String.eqb attr "institutional_holders" then Ok (Some acme_holders)
    else Ok (Some acme_statement)
  else if String.eqb ticker "ZZZZ" then Ok (Some DataFrame_new)
  else Ok None.

Definition yf_info (h : History) (ticker : string)
  : Result (list (string * Json)) :=
  if String.eqb ticker "ACME" then Ok acme_info else Ok [].

Definition to_csv_text (with_index : bool) (df : DataFrame) : string :=
  if decide (df = acme_prices) then prices_text
  else if decide (df = acme_prices_2019) then prices_2019_text
  else if decide (df = acme_statement) then statement_text
  else if decide (df = ttm_statement) then ttm_text
  else if decide (df = acme_holders) then holders_text
  else "".

Definition read_csv_text (index_col : option nat) (parse_dates : bool)
    (s : string) : Result DataFrame :=
  if String.eqb s prices_text then Ok acme_prices
  else if String.eqb s prices_2019_text then Ok acme_prices_2019
  else if String.eqb s statement_text then Ok acme_statement_read
  else if String.eqb s ttm_text then Ok ttm_statement
  else if String.eqb s holders_text then Ok acme_holders
  else Raise ParserError.

Definition to_datetime (a : Axis) : Result Axis :=
  if decide (a = Index [LStr "2023-12-31"]) then Ok (Index [LDate 19722])
  else Raise ValueError.

Definition getitem (df : DataFrame) (key : string) : Result Selection :=
  if decide (columns df = Index [LStr key])
  then Ok (SelSeries (index df) (LStr key) (concat (data df)))
  else Raise KeyError.

Definition json_dumps (indent : nat) (v : Json) : string :=
  match v with
  | JDict (_ :: _) => info_text
  | _ => "{}"
  end.

Definition json_loads (s : string) : Result Json :=
  if String.eqb s info_text then Ok (JDict acme_info)
  else if String.eqb s "{}" then Ok (JDict [])
  else Raise JSONDecodeError.

(** Nothing cached, everything writable, no call made yet. *)
Definition cold : World := MkWorld ∅ ∅ [].

(** Only the annual balance sheet of ["ACME"] is cached. *)
Definition partial : World :=
  MkWorld {[ financials_cache_file data_raw "ACME" "balance_sheet" := ttm_text ]}
    ∅ [].

(** The price file of ["ACME"] cannot be written. *)
Definition readonly : World :=
  MkWorld ∅ {[ stock_cache_file data_raw "ACME" ]} [].

(** ["ZZZZ"] was listed once: an old price file is still there. *)
Definition stale : World :=
  MkWorld {[ stock_cache_file data_raw "ZZZZ" := prices_text ]} ∅ [].

(** [cold] after the price series of ["ACME"] was fetched from
    2023-01-01. *)
Definition warm : World :=
  MkWorld {[ stock_cache_file data_raw "ACME" := prices_text ]} ∅
    [(Download "ACME" "2023-01-01" None, Ok (RTable (Some acme_prices)))].

(** [partial] after a fetch of the annual statements of ["ACME"], and the
    bundle that fetch returns. *)
Definition partial_after : World :=
  MkWorld
    (<[financials_cache_file data_raw "ACME" "income_stmt" := statement_text]>
       (<[financials_cache_file data_raw "ACME" "cashflow" := statement_text]>
          (files partial)))
    ∅
    [(GetAttr "ACME" "financials", Ok (RTable (Some acme_statement)));
     (GetAttr "ACME" "cashflow", Ok (RTable (Some acme_statement)))].

Definition partial_bundle : gmap string DataFrame :=
  <["income_stmt" := acme_statement]>
    (<["balance_sheet" := ttm_statement]>
       (<["cashflow" := acme_statement]> ∅)).

(** [cold] after a fetch of the holders of an identifier the provider does
    not know, and the bundle that fetch returns. *)
Definition unknown_after : World :=
  MkWorld ∅ ∅
    [(GetAttr "NONE" "institutional_holders", Ok (RTable None));
     (GetAttr "NONE" "major_holders", Ok (RTable None));
     (GetAttr "NONE" "recommendations", Ok (RTable None))].

Definition unknown_bundle : gmap string DataFrame :=
  <["institutional_holders" := DataFrame_new]>
    (<["major_holders" := DataFrame_new]>
       (<["recommendations" := DataFrame_new]> ∅)).

Definition stock := get_stock_data data_raw yf_download to_csv_text read_csv_text.
Definition financials :=
  get_company_financials data_raw yf_attr to_csv_text read_csv_text to_datetime.
Definition quarterly :=
  get_quarterly_financials data_raw yf_attr to_csv_text read_csv_text to_datetime.
Definition info := get_company_info data_raw yf_info json_dumps json_loads.
Definition holders :=
  get_holders_and_recommendations data_raw yf_attr to_csv_text read_csv_text.
Definition treasury :=
  get_treasury_yield data_raw yf_download to_csv_text read_csv_text getitem.

End Stub.

(** A sub-kind is cached or it is not. *)
Global Instance cached_dec_inst (file : string → Path) (use_cache : bool)
    (w : World) (name : string) : Decision (cached file use_cache w name).
Proof. unfold cached. apply _. Defined.

(** ** A provider that fails, and entries that do not parse *)

Module Faults.

Definition timed_out : Exc := ProviderError "timed out".

(** The provider is down: every download and every metadata read raises. *)
Definition down_download (h : History) (ticker start : string)
    (end_ : option string) : Result DataFrame :=
  Raise timed_out.

Definition down_info (h : History) (ticker : string)
  : Result (list (string * Json)) :=
  Raise timed_out.

(** The provider answers two remote calls and is down from the third
    on. *)
Definition flaky_attr (h : History) (ticker attr : string)
  : Result (option DataFrame) :=
  if (length h <? 2)%nat then Stub.yf_attr h ticker attr else Raise timed_out.

(** A provider that has prices for every identifier. *)
Definition any_download (h : History) (ticker start : string)
    (end_ : option string) : Result DataFrame :=
  Ok Stub.acme_prices.

(** Entries of ["ACME"] that hold something else than a table or a JSON
    document. *)
Definition unreadable : string := "<html>".

Definition corrupt : World :=
  MkWorld
    (<[stock_cache_file data_raw "ACME" := unreadable]>
       (<[info_cache_file data_raw "ACME" := unreadable]>
          (<[financials_cache_file data_raw "ACME" "balance_sheet" := unreadable]>
             (<[quarterly_cache_file data_raw "ACME" "cashflow" := unreadable]>
                (<[holders_cache_file data_raw "ACME" "major_holders" := unreadable]>
                   ∅)))))
    ∅ [].

(** The metadata of ["ZZZZ"] from the time it was listed. *)
Definition stale_info : World :=
  MkWorld {[ info_cache_file data_raw "ZZZZ" := Stub.info_text ]} ∅ [].

End Faults.

(** ** The confidence score of [plots.py]

    [executive_dashboard_gauges] shows, on a gauge whose axis runs from 0
    to 100, a score computed from the coefficient of variation of the
    values of the sensitivity matrix:

      [cv = np.std(sensitivity_values) / np.mean(sensitivity_values)]
      [confidence = max(0, min(100, (1 - cv) * 100))]

    [cv] is a binary64 float.  [min] and [max] are the built-ins of Python
    on two arguments: the first argument is kept unless the second is
    strictly smaller (for [max]: strictly larger), and a comparison with
    NaN is false. *)

Module Plots.

Definition py_min (a b : float) : float := if (b <? a)%float then b else a.

Definition py_max (a b : float) : float := if (a <? b)%float then b else a.

Definition confidence (cv : float) : float :=
  py_max 0 (py_min 100 ((1 - cv) * 100)).

End Plots.

(** * Properties *)

(** ** Strings and paths *)

Lemma app_empty (s : string) : "" +:+ s = s.
Proof. reflexivity. Qed.

Lemma app_String (c : ascii) (s t : string) :
  String c s +:+ t = String c (s +:+ t).
Proof. reflexivity. Qed.

Lemma length_app (s1 s2 : string) :
  String.length (s1 +:+ s2) = String.length s1 + String.length s2.
Proof.
  induction s1 as [|c s1 IH]; [done |].
  rewrite app_String. simpl. by rewrite IH.
Qed.

Lemma app_cancel_r (s1 s2 suf : string) :
  s1 +:+ suf = s2 +:+ suf → s1 = s2.
Proof.
  revert s2. induction s1 as [|c s1 IH]; intros [|c' s2] H.
  - done.
  - apply (f_equal String.length) in H.
    rewrite !length_app in H. simpl in H. lia.
  - apply (f_equal String.length) in H.
    rewrite !length_app in H. simpl in H. lia.
  - rewrite !app_String in H. injection H as -> H. f_equal. by apply IH.
Qed.

Lemma app_cancel_l (s x y : string) : s +:+ x = s +:+ y → x = y.
Proof.
  induction s as [|c s IH]; [done |]. rewrite !app_String. intros [=]. auto.
Qed.

Lemma keep_part_app (seg suf : string) :
  keep_part suf = true → keep_part (seg +:+ suf) = true.
Proof.
  destruct suf as [|c suf]; [done |].
  destruct seg as [|d seg]; [done |]. intros _.
  rewrite app_String. unfold keep_part. simpl.
  destruct (Ascii.eqb d "."); [|done].
  destruct seg; done.
Qed.

Lemma split_sep_nosep (s : string) : has_sep s = false → split_sep s = [s].
Proof.
  induction s as [|c s IH]; simpl; [done |].
  destruct (Ascii.eqb c sep); simpl; [done |].
  intros H. by rewrite IH.
Qed.

(** Appending a suffix without separator only extends the last segment. *)
Lemma split_sep_app (rel : string) :
  ∃ pre seg, split_sep rel = pre ++ [seg] ∧
    ∀ suf, has_sep suf = false → split_sep (rel +:+ suf) = pre ++ [seg +:+ suf].
Proof.
  induction rel as [|c rel (pre & seg & E & IH)].
  - exists [], EmptyString. split; [done |].
    intros suf H. by rewrite !app_empty, split_sep_nosep.
  - setoid_rewrite app_String. simpl. destruct (Ascii.eqb c sep).
    + exists (EmptyString :: pre), seg. split; [by rewrite E |].
      intros suf H. by rewrite IH.
    + destruct pre as [|h pre].
      * exists [], (String c seg). split; [by rewrite E |].
        intros suf H. by rewrite IH.
      * exists (String c h :: pre), seg. split; [by rewrite E |].
        intros suf H. by rewrite IH.
Qed.

Lemma has_sep_head (c : ascii) (s : string) :
  has_sep (String c s) = false → Ascii.eqb c sep = false.
Proof. simpl. by destruct (Ascii.eqb c sep). Qed.

Lemma splitroot_app (t suf : string) :
  has_sep suf = false →
  splitroot (t +:+ suf) = ((splitroot t).1, (splitroot t).2 +:+ suf).
Proof.
  intros H.
  assert (Hs : splitroot suf = (EmptyString, suf)).
  { destruct suf as [|c suf]; [done |]. simpl. by rewrite (has_sep_head _ _ H). }
  destruct t as [|c0 [|c1 [|c2 t]]]; rewrite ?app_String, ?app_empty; simpl.
  - done.
  - destruct (Ascii.eqb c0 sep); [|done].
    destruct suf as [|c suf]; [done |]. by rewrite (has_sep_head _ _ H).
  - destruct (Ascii.eqb c0 sep); [|done].
    destruct (Ascii.eqb c1 sep); [|done].
    destruct suf as [|c suf]; [done |]. by rewrite (has_sep_head _ _ H).
  - destruct (Ascii.eqb c0 sep); [|done].
    destruct (Ascii.eqb c1 sep); [|done].
    by destruct (Ascii.eqb c2 sep).
Qed.

Lemma clean_suffix_spec (suf : string) :
  clean_suffix suf = true → has_sep suf = false ∧ keep_part suf = true.
Proof.
  unfold clean_suffix. intros [H1 H2]%andb_true_iff.
  by apply negb_true_iff in H1.
Qed.

(** The path of [t ++ suf] is a directory part, which depends on [t] only,
    followed by one component that ends with the suffix. *)
Lemma joinpath_app (root : Path) (t : string) :
  ∃ a pre seg, ∀ suf, clean_suffix suf = true →
    joinpath root (t +:+ suf) = MkPath a (pre ++ [seg +:+ suf]).
Proof.
  destruct (split_sep_app (splitroot t).2) as (pre & seg & E & Happ).
  set (fpre := filter (λ x, Is_true (keep_part x)) pre).
  exists (if String.eqb (splitroot t).1 "" then anchor root else (splitroot t).1),
    (if String.eqb (splitroot t).1 "" then parts root ++ fpre else fpre), seg.
  intros suf [Hs Hk]%clean_suffix_spec.
  unfold joinpath, parse_path. rewrite splitroot_app by done. simpl.
  rewrite Happ by done. rewrite filter_app, filter_cons_True, filter_nil.
  2: { rewrite keep_part_app; done. }
  fold fpre. destruct (String.eqb (splitroot t).1 ""); simpl; [|done].
  by rewrite app_assoc.
Qed.

(** Same identifier, two clean suffixes: same path only if same suffix. *)
Lemma joinpath_suffix_inj (root : Path) (t s1 s2 : string) :
  clean_suffix s1 = true → clean_suffix s2 = true →
  joinpath root (t +:+ s1) = joinpath root (t +:+ s2) → s1 = s2.
Proof.
  intros H1 H2. destruct (joinpath_app root t) as (a & pre & seg & E).
  rewrite !E by done. intros [= H]. apply app_inj_tail in H as [_ H].
  by apply app_cancel_l in H.
Qed.

(** A name without separator becomes one component under the root. *)
Lemma joinpath_nosep (root : Path) (s : string) :
  has_sep s = false → keep_part s = true →
  joinpath root s = MkPath (anchor root) (parts root ++ [s]).
Proof.
  intros Hs Hk. unfold joinpath, parse_path.
  assert (splitroot s = (EmptyString, s)) as ->.
  { destruct s as [|c s]; [done |]. simpl. by rewrite (has_sep_head _ _ Hs). }
  simpl. rewrite split_sep_nosep by done.
  rewrite filter_cons_True, filter_nil; [done | by rewrite Hk].
Qed.

Lemma has_sep_app (s1 s2 : string) :
  has_sep (s1 +:+ s2) = has_sep s1 || has_sep s2.
Proof.
  induction s1 as [|c s1 IH]; [done |].
  rewrite app_String. simpl. by rewrite IH, orb_assoc.
Qed.

(** Two names without separator: same path only if same name. *)
Lemma joinpath_nosep_inj (root : Path) (s1 s2 : string) :
  has_sep s1 = false → keep_part s1 = true →
  has_sep s2 = false → keep_part s2 = true →
  joinpath root s1 = joinpath root s2 → s1 = s2.
Proof.
  intros A1 B1 A2 B2. rewrite !joinpath_nosep by done.
  intros [= H]. by apply app_inv_head in H as [= ->].
Qed.

(** ** Cache keys and their files *)

Lemma key_path_suffix (root : Path) (k : CacheKey) :
  key_path root k = joinpath root (key_id k +:+ kind_suffix (key_kind k)).
Proof. destruct k as [id [|[]|[]| |[]]]; reflexivity. Qed.

Lemma kind_suffix_clean (k : DataKind) : clean_suffix (kind_suffix k) = true.
Proof. destruct k as [|[]|[]| |[]]; reflexivity. Qed.

Lemma kind_suffix_inj (k1 k2 : DataKind) :
  kind_suffix k1 = kind_suffix k2 → k1 = k2.
Proof.
  destruct k1 as [|[]|[]| |[]], k2 as [|[]|[]| |[]];
    intros H; try reflexivity; vm_compute in H; discriminate H.
Qed.

(** The file names of one identifier never meet. *)
Lemma key_path_same_id (root : Path) (id : string) (k1 k2 : DataKind) :
  key_path root (MkKey id k1) = key_path root (MkKey id k2) → k1 = k2.
Proof.
  rewrite !key_path_suffix. simpl. intros H.
  apply kind_suffix_inj.
  eapply joinpath_suffix_inj; eauto using kind_suffix_clean.
Qed.

(** Separators in an identifier are read as directories and normalised
    away: two identifiers of one kind can name the same file. *)
Example key_path_normalised :
  key_path data_raw (MkKey "a//b" PriceSeries)
  = key_path data_raw (MkKey "a/b" PriceSeries).
Proof. reflexivity. Qed.

(** C4, as stated, fails: the price series of ["A_income_stmt"] and the
    annual income statement of ["A"] are two keys with one file,
    [A_income_stmt.csv]. *)
Lemma key_path_collision :
  ¬ (∀ (root : Path) (k1 k2 : CacheKey),
       k1 ≠ k2 → key_path root k1 ≠ key_path root k2).
Proof.
  intros H.
  apply (H data_raw (MkKey "A_income_stmt" PriceSeries)
           (MkKey "A" (AnnualStatements income_stmt))).
  - discriminate.
  - reflexivity.
Qed.

(** C4, amended: the path is a function of the key, and two distinct keys
    have distinct paths when they have the same identifier, or when they
    have the same data kind and sub-kind and identifiers without path
    separator. *)
Theorem key_path_distinct (root : Path) (k1 k2 : CacheKey) :
  k1 ≠ k2 →
  key_id k1 = key_id k2
  ∨ (key_kind k1 = key_kind k2
     ∧ has_sep (key_id k1) = false ∧ has_sep (key_id k2) = false) →
  key_path root k1 ≠ key_path root k2.
Proof.
  destruct k1 as [id1 kd1], k2 as [id2 kd2]. simpl.
  intros Hne [-> | (-> & H1 & H2)] Heq.
  - apply key_path_same_id in Heq. congruence.
  - rewrite !key_path_suffix in Heq. simpl in Heq.
    pose proof (kind_suffix_clean kd2) as [Hs Hk]%clean_suffix_spec.
    apply joinpath_nosep_inj in Heq.
    + apply app_cancel_r in Heq. congruence.
    + by rewrite has_sep_app, H1, Hs.
    + by apply keep_part_app.
    + by rewrite has_sep_app, H2, Hs.
    + by apply keep_part_app.
Qed.

(** The price series and the metadata of ["ACME"] have two files. *)
Lemma key_path_distinct_witness :
  MkKey "ACME" PriceSeries ≠ MkKey "ACME" CompanyInfo
  ∧ key_id (MkKey "ACME" PriceSeries) = key_id (MkKey "ACME" CompanyInfo)
  ∧ key_path data_raw (MkKey "ACME" PriceSeries)
    ≠ key_path data_raw (MkKey "ACME" CompanyInfo).
Proof.
  split; [discriminate |]. split; [reflexivity |].
  apply key_path_distinct; [discriminate | left; reflexivity].
Defined.

(** ** The monad, step by step *)

Ltac unfold_M :=
  unfold read_csv, to_csv, cache_hit, getattr, download, ticker_info in *;
  unfold mbind, M_bind, mret, M_ret, lift, path_exists, read_text, write_text,
    log_call, set_files in *.

Lemma bind_eq {A B : Type} (m : M A) (k : A → M B) (w : World) :
  (m ≫= k) w = match m w with
               | (Ok a, w') => k a w'
               | (Raise e, w') => (Raise e, w')
               end.
Proof. reflexivity. Qed.

Lemma cache_hit_true (p : Path) (s : string) (w : World) :
  files w !! p = Some s → cache_hit true p w = (Ok true, w).
Proof. intros H. unfold cache_hit, path_exists. by rewrite H. Qed.

Lemma cache_hit_false (uc : bool) (p : Path) (w : World) :
  uc = false ∨ files w !! p = None → cache_hit uc p w = (Ok false, w).
Proof.
  unfold cache_hit, path_exists. intros [-> | H]; [done |].
  destruct uc; [|done]. by rewrite H.
Qed.

Lemma for_each_cons {A S : Type} (f : S → A → M S) (x : A) (l : list A)
    (s : S) (w : World) :
  for_each f (x :: l) s w =
    match f s x w with
    | (Ok s', w') => for_each f l s' w'
    | (Raise e, w') => (Raise e, w')
    end.
Proof. reflexivity. Qed.

Lemma for_each_ext {A S : Type} (f g : S → A → M S) (l : list A) (s : S) (w : World) :
  (∀ s x w, f s x w = g s x w) → for_each f l s w = for_each g l s w.
Proof.
  intros H. revert s w. induction l as [|x l IH]; intros s w; [done |].
  rewrite !for_each_cons, H. destruct (g s x w) as [[s'|e] w']; auto.
Qed.

Lemma new_calls_refl (w : World) : new_calls w w = [].
Proof. unfold new_calls. apply drop_all. Qed.

Lemma new_calls_app (w w' : World) (l : History) :
  calls w' = calls w ++ l → new_calls w w' = l.
Proof. intros H. unfold new_calls. rewrite H. apply drop_app_length. Qed.

(** ** The loops over sub-kinds *)

Section BundleFacts.

Variable yf_attr : History → string → string → Result (option DataFrame).
Variable to_csv_text : bool → DataFrame → string.
Variable file : string → Path.
Variable with_index : bool.
Variable decode : string → Result DataFrame.
Variable value : option DataFrame → Result DataFrame.
Variable ticker : string.
Variable use_cache : bool.

Local Abbreviation item :=
  (bundle_item yf_attr to_csv_text file with_index decode value ticker use_cache).

(** The cached branch of one turn: the world is left as it is. *)
Lemma item_hit (acc : gmap string DataFrame) (name attr s : string) (w : World) :
  use_cache = true → files w !! file name = Some s →
  item acc (name, attr) w = (result_map (λ df, <[name := df]> acc) (decode s), w).
Proof.
  intros -> H. unfold bundle_item.
  rewrite bind_eq, (cache_hit_true _ s) by done.
  unfold_M. rewrite H. by destruct (decode s).
Qed.

(** The fetching branch of one turn. *)
Lemma item_miss (acc : gmap string DataFrame) (name attr : string) (w : World) :
  use_cache = false ∨ files w !! file name = None →
  item acc (name, attr) w =
    let r := yf_attr (calls w) ticker attr in
    let w1 := log_call (GetAttr ticker attr, result_map RTable r) w in
    match r with
    | Raise e => (Raise e, w1)
    | Ok reply =>
        match value reply with
        | Raise e => (Raise e, w1)
        | Ok v =>
            if reply_nonempty reply then
              if decide (file name ∈ denied w) then (Raise OSError, w1)
              else (Ok (<[name := v]> acc),
                    set_files (<[file name :=
                        to_csv_text with_index (default DataFrame_new reply)]>
                      (files w)) w1)
            else (Ok (<[name := v]> acc), w1)
        end
    end.
Proof.
  intros H. unfold bundle_item.
  rewrite bind_eq, cache_hit_false by done.
  unfold_M. simpl. destruct (yf_attr (calls w) ticker attr) as [[df|]|e]; simpl.
  - destruct (value (Some df)); [|done].
    destruct (empty df); simpl; [done |].
    by destruct (decide (file name ∈ denied w)).
  - by destruct (value None).
  - done.
Qed.

Local Abbreviation frame :=
  (loop_frame to_csv_text file with_index ticker use_cache).

Lemma frame_refl (l : list (string * string)) (w : World) : frame l w w.
Proof.
  split; [done |]. exists []. rewrite app_nil_r.
  split; [done |]. split; [apply sublist_nil_l | by left].
Qed.

(** One turn, whatever its outcome. *)
Lemma item_frame (acc : gmap string DataFrame) (name attr : string) (w : World) :
  frame [(name, attr)] w (item acc (name, attr) w).2.
Proof.
  destruct (decide (use_cache = true ∧ is_Some (files w !! file name)))
    as [[Huc [s Hs]] | Hn].
  - rewrite (item_hit _ _ _ s) by done. apply frame_refl.
  - assert (Hm : use_cache = false ∨ files w !! file name = None).
    { destruct use_cache; [|by left]. right.
      destruct (files w !! file name) eqn:E; [|done]. exfalso. eauto. }
    rewrite item_miss by done. cbv zeta.
    set (r := yf_attr (calls w) ticker attr).
    assert (Hlog : ∀ fs : gmap Path string,
      (∀ q, fs !! q = files w !! q ∨
            ∃ df, q = file name ∧ r = Ok (Some df) ∧ empty df = false ∧
              fs !! q = Some (to_csv_text with_index df) ∧
              (use_cache = true → files w !! q = None)) →
      frame [(name, attr)] w
        (set_files fs (log_call (GetAttr ticker attr, result_map RTable r) w))).
    { intros fs Hfs. split; [done |].
      exists [(GetAttr ticker attr, result_map RTable r)].
      split; [done |]. split; [done |]. intros q.
      destruct (Hfs q) as [? | (df & -> & Hr & ? & ? & ?)]; [by left |].
      right. exists name, attr, df. rewrite Hr. simpl.
      repeat split; auto; apply list_elem_of_singleton; done. }
    assert (Hsame : frame [(name, attr)] w
              (log_call (GetAttr ticker attr, result_map RTable r) w)).
    { apply (Hlog (files w)). by left. }
    destruct r as [reply|e] eqn:Er; [|done].
    destruct (value reply); [|done].
    destruct (reply_nonempty reply) eqn:Hne; [|done].
    destruct (decide (file name ∈ denied w)); [done |].
    simpl. apply Hlog. intros q.
    destruct (decide (q = file name)) as [-> | Hq].
    + right. destruct reply as [df|]; [|done]. exists df.
      simpl in Hne. apply negb_true_iff in Hne.
      rewrite lookup_insert_eq. repeat split; auto.
      intros Huc. destruct Hm as [Hm | Hm]; congruence.
    + left. by rewrite lookup_insert_ne.
Qed.

Lemma frame_cons (x : string * string) (l : list (string * string))
    (w w1 w' : World) :
  frame [x] w w1 → frame l w1 w' → frame (x :: l) w w'.
Proof.
  intros (Hd0 & new0 & Hc0 & Hs0 & Hf0) (Hd1 & new1 & Hc1 & Hs1 & Hf1).
  split; [congruence |]. exists (new0 ++ new1).
  split; [by rewrite Hc1, Hc0, app_assoc |].
  split.
  { rewrite fmap_app.
    change (requests ticker (x :: l))
      with (requests ticker [x] ++ requests ticker l).
    by apply sublist_app. }
  intros q. destruct (Hf1 q) as [E1 | (n & a & df & Hin & -> & Hr & Hne & Hw & Hno)].
  - destruct (Hf0 q) as [E0 | (n & a & df & Hin & -> & Hr & Hne & Hw & Hno)].
    + left. congruence.
    + right. exists n, a, df. apply list_elem_of_singleton in Hin as ->.
      rewrite E1. repeat split; auto.
      * apply elem_of_cons; by left.
      * apply elem_of_app; by left.
  - right. exists n, a, df. repeat split; auto.
    + apply elem_of_cons; by right.
    + apply elem_of_app; by right.
    + intros Huc. specialize (Hno Huc).
      destruct (Hf0 (file n)) as [E0 | (? & ? & ? & _ & _ & _ & _ & Hw0 & _)];
        congruence.
Qed.

(** The whole loop, whatever its outcome. *)
Lemma for_each_frame (l : list (string * string)) (acc : gmap string DataFrame)
    (w : World) :
  frame l w (for_each item l acc w).2.
Proof.
  revert acc w. induction l as [|[name attr] l IH]; intros acc w.
  - apply frame_refl.
  - rewrite for_each_cons.
    pose proof (item_frame acc name attr w) as H0.
    destruct (item acc (name, attr) w) as [[acc1|e] w1]; simpl in H0.
    + eapply frame_cons; [exact H0 | apply IH].
    + eapply frame_cons; [exact H0 | apply frame_refl].
Qed.

Lemma frame_calls (l : list (string * string)) (w w' : World) :
  frame l w w' → calls w' = calls w ++ new_calls w w'.
Proof.
  intros (_ & new & Hc & _). by rewrite (new_calls_app _ _ _ Hc).
Qed.

Lemma frame_new_calls (l : list (string * string)) (w w' : World)
    (c : Request * Result Reply) :
  frame l w w' → c ∈ new_calls w w' →
  ∃ name attr, (name, attr) ∈ l ∧ c.1 = GetAttr ticker attr.
Proof.
  intros (_ & new & Hc & Hs & _) Hin.
  rewrite (new_calls_app _ _ _ Hc) in Hin.
  assert (H : c.1 ∈ requests ticker l).
  { eapply elem_of_sublist; [|exact Hs]. by apply list_elem_of_fmap_2. }
  apply list_elem_of_fmap in H as ([name attr] & E & Hl). eauto.
Qed.

Lemma frame_other_file (l : list (string * string)) (w w' : World) (q : Path) :
  frame l w w' → (∀ name attr, (name, attr) ∈ l → file name ≠ q) →
  files w' !! q = files w !! q.
Proof.
  intros (_ & new & _ & _ & Hf) Hq.
  destruct (Hf q) as [? | (n & a & ? & Hin & -> & _)]; [done |].
  by destruct (Hq n a Hin).
Qed.

Lemma new_calls_trans (w w1 w' : World) :
  calls w1 = calls w ++ new_calls w w1 →
  calls w' = calls w1 ++ new_calls w1 w' →
  new_calls w w' = new_calls w w1 ++ new_calls w1 w'.
Proof.
  intros H0 H1. apply new_calls_app. by rewrite H1, H0 at 1; rewrite app_assoc.
Qed.

Lemma cached_dec (w : World) (name : string) :
  cached file use_cache w name ∨
  (¬ cached file use_cache w name ∧
   (use_cache = false ∨ files w !! file name = None)).
Proof.
  unfold cached. destruct use_cache.
  - destruct (files w !! file name) eqn:E; [left; eauto |].
    right. split; [|by right]. by intros [_ [? ?]].
  - right. split; [|by left]. by intros [? _].
Qed.

(** One turn that ended. *)
Lemma item_ok_inv (acc acc1 : gmap string DataFrame) (name attr : string)
    (w w1 : World) :
  item acc (name, attr) w = (Ok acc1, w1) →
  (cached file use_cache w name ∧
   ∃ s df, files w !! file name = Some s ∧ decode s = Ok df ∧
           acc1 = <[name := df]> acc ∧ w1 = w)
  ∨ (¬ cached file use_cache w name ∧
     ∃ reply v, value reply = Ok v ∧ acc1 = <[name := v]> acc ∧
       new_calls w w1 = [(GetAttr ticker attr, Ok (RTable reply))] ∧
       (reply_nonempty reply = true → file name ∉ denied w) ∧
       files w1 !! file name =
         if reply_nonempty reply
         then Some (to_csv_text with_index (default DataFrame_new reply))
         else files w !! file name).
Proof.
  intros H. destruct (cached_dec w name) as [Hc | [Hn Hm]].
  - left. split; [done |]. destruct Hc as [Huc [s Hs]].
    rewrite (item_hit _ _ _ s) in H by done.
    destruct (decode s) as [df|] eqn:Ed; simpl in H; [|done].
    injection H as <- <-. eauto 10.
  - right. split; [done |]. rewrite item_miss in H by done. cbv zeta in H.
    destruct (yf_attr (calls w) ticker attr) as [reply|]; [|done].
    destruct (value reply) as [v|] eqn:Ev; [|done].
    exists reply, v.
    destruct (reply_nonempty reply); [destruct (decide _); [done |] |];
      injection H as <- <-; (split; [done |]); (split; [done |]);
      (split; [by apply new_calls_app |]); (split; [done |]); simpl; [|done].
    by rewrite lookup_insert_eq.
Qed.

(** The loop that ended: every sub-kind was resolved on its own, by the
    state of its own file in the world the loop started from. *)
Lemma for_each_ok (l : list (string * string)) (acc b : gmap string DataFrame)
    (w w' : World) :
  NoDup l.*1 → NoDup l.*2 →
  (∀ n1 n2, n1 ∈ l.*1 → n2 ∈ l.*1 → file n1 = file n2 → n1 = n2) →
  for_each item l acc w = (Ok b, w') →
  (∀ name, name ∉ l.*1 → b !! name = acc !! name) ∧
  ∀ name attr, (name, attr) ∈ l →
    (cached file use_cache w name ∧
     from_cache file decode ticker w w' b name attr)
    ∨ (¬ cached file use_cache w name ∧
       by_fetch to_csv_text file with_index value ticker w w' b name attr).
Proof.
  revert acc w. induction l as [|[n0 a0] l IH]; intros acc w Hn Ha Hinj.
  { intros [= <- <-]. split; [done |]. intros ?? Hin. by apply elem_of_nil in Hin. }
  rewrite for_each_cons.
  pose proof (item_frame acc n0 a0 w) as F0.
  destruct (item acc (n0, a0) w) as [[acc1|e] w1] eqn:E0; [|done].
  simpl in F0. intros E1.
  pose proof (for_each_frame l acc1 w1) as F1. rewrite E1 in F1. simpl in F1.
  simpl in Hn, Ha. apply NoDup_cons in Hn as [Hn0 Hn], Ha as [Ha0 Ha].
  destruct (IH acc1 w1 Hn Ha) as [IHacc IHl]; [|done|].
  { intros n1 n2 H1 H2. apply Hinj; apply elem_of_cons; by right. }
  pose proof (new_calls_trans w w1 w' (frame_calls _ _ _ F0) (frame_calls _ _ _ F1))
    as Hnew.
  (* what the tail of the loop does not touch *)
  assert (Hfile0 : files w' !! file n0 = files w1 !! file n0).
  { eapply frame_other_file; [exact F1 |]. intros n a Hin Heq.
    assert (n ∈ l.*1) by (apply list_elem_of_fmap; by exists (n, a)).
    apply Hinj in Heq; [by subst | apply elem_of_cons; by right
                       | apply elem_of_cons; by left]. }
  assert (Hcalls0 : ∀ r, (GetAttr ticker a0, r) ∉ new_calls w1 w').
  { intros r Hin. destruct (frame_new_calls _ _ _ _ F1 Hin) as (n & a & Hl & [= ->]).
    apply Ha0. apply list_elem_of_fmap. by exists (n, a). }
  split.
  { intros name Hname. apply not_elem_of_cons in Hname as [Hne Hname].
    rewrite (IHacc name Hname).
    apply item_ok_inv in E0 as [(_ & s & df & _ & _ & -> & _)
                               | (_ & reply & v & _ & -> & _)];
      by rewrite lookup_insert_ne. }
  intros name attr [[= -> ->] | Hin]%elem_of_cons.
  - (* the head of the loop *)
    apply item_ok_inv in E0 as [(Hc & s & df & Hs & Hd & -> & ->)
                               | (Hc & reply & v & Hv & -> & Hn1 & Hden & Hf)].
    + left. split; [done |]. exists s, df.
      rewrite (IHacc n0 Hn0), lookup_insert_eq, Hfile0.
      repeat split; auto.
    + right. split; [done |]. exists reply, v.
      rewrite (IHacc n0 Hn0), lookup_insert_eq, Hfile0.
      repeat split; auto.
      * rewrite Hnew, Hn1. intros [H | H]%elem_of_app.
        -- apply list_elem_of_singleton in H. congruence.
        -- by apply Hcalls0 in H.
      * intros ->. rewrite Hnew, Hn1. apply elem_of_app. left.
        by apply list_elem_of_singleton.
  - (* a later sub-kind: the head did not touch its file nor call for it *)
    assert (Hname : name ∈ l.*1) by (apply list_elem_of_fmap; by exists (name, attr)).
    assert (Hattr : attr ∈ l.*2) by (apply list_elem_of_fmap; by exists (name, attr)).
    assert (Hfile : files w1 !! file name = files w !! file name).
    { eapply frame_other_file; [exact F0 |]. intros n a Hl Heq.
      apply list_elem_of_singleton in Hl as [= -> ->].
      apply Hinj in Heq; [by subst | apply elem_of_cons; by left
                         | apply elem_of_cons; by right]. }
    assert (Hcached : cached file use_cache w1 name ↔ cached file use_cache w name).
    { unfold cached. by rewrite Hfile. }
    assert (Hcalls : ∀ r, (GetAttr ticker attr, r) ∈ new_calls w w'
                          ↔ (GetAttr ticker attr, r) ∈ new_calls w1 w').
    { intros r. rewrite Hnew, elem_of_app. split; [|by right].
      intros [H | H]; [|done].
      destruct (frame_new_calls _ _ _ _ F0 H) as (n & a & Hl & [= ->]).
      apply list_elem_of_singleton in Hl as [= -> ->]. done. }
    destruct (IHl name attr Hin) as [(Hc & s & df & Hs & Hd & Hb & Hf & Hr)
                                    | (Hc & reply & v & Hr & Hv & Hb & Hden & Hf)].
    + left. split; [by apply Hcached |]. exists s, df.
      rewrite <- Hfile. repeat split; auto.
      intros r Hin'. apply (Hr r). by apply Hcalls.
    + right. split; [by rewrite <- Hcached |]. exists reply, v.
      rewrite <- Hfile. destruct F0 as [Hden0 _]. rewrite <- Hden0.
      repeat split; auto.
      * intros H. apply Hr. by apply Hcalls.
      * intros H. apply Hcalls. by apply Hr.
Qed.

End BundleFacts.

(** ** The three loops are instances of the shared shape *)

Section Instances.

Variable RAW_DATA_DIR : Path.
Variable yf_attr : History → string → string → Result (option DataFrame).
Variable to_csv_text : bool → DataFrame → string.
Variable read_csv_text : option nat → bool → string → Result DataFrame.
Variable to_datetime : Axis → Result Axis.

Ltac run_item :=
  intros; unfold_M;
  repeat (case_match; simplify_eq/=; try done).

Lemma financials_item_bundle (ticker : string) (use_cache : bool)
    (acc : gmap string DataFrame) (it : string * string) (w : World) :
  financials_item RAW_DATA_DIR yf_attr to_csv_text read_csv_text to_datetime
    ticker use_cache acc it w
  = bundle_item yf_attr to_csv_text (financials_cache_file RAW_DATA_DIR ticker)
      true (statement_decode read_csv_text to_datetime) statement_value
      ticker use_cache acc it w.
Proof.
  destruct it as [name attr].
  unfold financials_item, bundle_item, statement_decode, statement_value.
  run_item.
Qed.

Lemma quarterly_item_bundle (ticker : string) (use_cache : bool)
    (acc : gmap string DataFrame) (it : string * string) (w : World) :
  quarterly_item RAW_DATA_DIR yf_attr to_csv_text read_csv_text to_datetime
    ticker use_cache acc it w
  = bundle_item yf_attr to_csv_text (quarterly_cache_file RAW_DATA_DIR ticker)
      true (statement_decode read_csv_text to_datetime) statement_value
      ticker use_cache acc it w.
Proof.
  destruct it as [name attr].
  unfold quarterly_item, bundle_item, statement_decode, statement_value.
  run_item.
Qed.

Lemma holders_item_bundle (ticker : string) (use_cache : bool)
    (acc : gmap string DataFrame) (it : string * string) (w : World) :
  holders_item RAW_DATA_DIR yf_attr to_csv_text read_csv_text
    ticker use_cache acc it w
  = bundle_item yf_attr to_csv_text (holders_cache_file RAW_DATA_DIR ticker)
      false (read_csv_text None false) holder_value
      ticker use_cache acc it w.
Proof.
  destruct it as [name attr].
  unfold holders_item, bundle_item, holder_value.
  run_item.
Qed.

Lemma get_company_financials_loop (ticker : string) (use_cache : bool) (w : World) :
  get_company_financials RAW_DATA_DIR yf_attr to_csv_text read_csv_text
    to_datetime ticker use_cache w
  = for_each
      (bundle_item yf_attr to_csv_text (financials_cache_file RAW_DATA_DIR ticker)
         true (statement_decode read_csv_text to_datetime) statement_value
         ticker use_cache)
      financials_types ∅ w.
Proof. apply for_each_ext, financials_item_bundle. Qed.

Lemma get_quarterly_financials_loop (ticker : string) (use_cache : bool) (w : World) :
  get_quarterly_financials RAW_DATA_DIR yf_attr to_csv_text read_csv_text
    to_datetime ticker use_cache w
  = for_each
      (bundle_item yf_attr to_csv_text (quarterly_cache_file RAW_DATA_DIR ticker)
         true (statement_decode read_csv_text to_datetime) statement_value
         ticker use_cache)
      quarterly_types ∅ w.
Proof. apply for_each_ext, quarterly_item_bundle. Qed.

Lemma get_holders_and_recommendations_loop (ticker : string) (use_cache : bool)
    (w : World) :
  get_holders_and_recommendations RAW_DATA_DIR yf_attr to_csv_text read_csv_text
    ticker use_cache w
  = for_each
      (bundle_item yf_attr to_csv_text (holders_cache_file RAW_DATA_DIR ticker)
         false (read_csv_text None false) holder_value ticker use_cache)
      holders_types ∅ w.
Proof. apply for_each_ext, holders_item_bundle. Qed.

(** The sub-kinds of a loop have distinct names, distinct provider
    attributes and, for every identifier, distinct files. *)
Lemma types_NoDup :
  NoDup financials_types.*1 ∧ NoDup financials_types.*2 ∧
  NoDup quarterly_types.*1 ∧ NoDup quarterly_types.*2 ∧
  NoDup holders_types.*1 ∧ NoDup holders_types.*2.
Proof. repeat split; apply (bool_decide_unpack _); vm_compute; exact I. Qed.

Lemma statement_names (n : string) :
  n ∈ financials_types.*1 ∨ n ∈ quarterly_types.*1 →
  ∃ k, n = statement_name k.
Proof.
  intros [H | H]; simpl in H;
    repeat (apply elem_of_cons in H as [-> | H]);
    try (by apply elem_of_nil in H);
    [ by exists income_stmt | by exists balance_sheet | by exists cashflow
    | by exists income_stmt | by exists balance_sheet | by exists cashflow ].
Qed.

Lemma holder_names (n : string) :
  n ∈ holders_types.*1 → ∃ k, n = holder_name k.
Proof.
  intros H; simpl in H;
    repeat (apply elem_of_cons in H as [-> | H]);
    try (by apply elem_of_nil in H);
    [ by exists institutional_holders | by exists major_holders
    | by exists recommendations ].
Qed.

Lemma financials_files_inj (ticker n1 n2 : string) :
  n1 ∈ financials_types.*1 → n2 ∈ financials_types.*1 →
  financials_cache_file RAW_DATA_DIR ticker n1
  = financials_cache_file RAW_DATA_DIR ticker n2 → n1 = n2.
Proof.
  intros H1 H2 E.
  destruct (statement_names n1) as [k1 ->]; [by left |].
  destruct (statement_names n2) as [k2 ->]; [by left |].
  apply (key_path_same_id RAW_DATA_DIR ticker
           (AnnualStatements k1) (AnnualStatements k2)) in E.
  by injection E as ->.
Qed.

Lemma quarterly_files_inj (ticker n1 n2 : string) :
  n1 ∈ quarterly_types.*1 → n2 ∈ quarterly_types.*1 →
  quarterly_cache_file RAW_DATA_DIR ticker n1
  = quarterly_cache_file RAW_DATA_DIR ticker n2 → n1 = n2.
Proof.
  intros H1 H2 E.
  destruct (statement_names n1) as [k1 ->]; [by right |].
  destruct (statement_names n2) as [k2 ->]; [by right |].
  apply (key_path_same_id RAW_DATA_DIR ticker
           (QuarterlyStatements k1) (QuarterlyStatements k2)) in E.
  by injection E as ->.
Qed.

Lemma holders_files_inj (ticker n1 n2 : string) :
  n1 ∈ holders_types.*1 → n2 ∈ holders_types.*1 →
  holders_cache_file RAW_DATA_DIR ticker n1
  = holders_cache_file RAW_DATA_DIR ticker n2 → n1 = n2.
Proof.
  intros H1 H2 E.
  destruct (holder_names n1) as [k1 ->]; [done |].
  destruct (holder_names n2) as [k2 ->]; [done |].
  apply (key_path_same_id RAW_DATA_DIR ticker
           (HoldersAndRecommendations k1) (HoldersAndRecommendations k2)) in E.
  by injection E as ->.
Qed.

End Instances.

(** ** The accessors of a single file *)

Section Single.

Variable RAW_DATA_DIR : Path.
Variable yf_download : History → string → string → option string → Result DataFrame.
Variable yf_info : History → string → Result (list (string * Json)).
Variable to_csv_text : bool → DataFrame → string.
Variable read_csv_text : option nat → bool → string → Result DataFrame.
Variable json_dumps : nat → Json → string.
Variable json_loads : string → Result Json.

Local Abbreviation stock :=
  (get_stock_data RAW_DATA_DIR yf_download to_csv_text read_csv_text).
Local Abbreviation info :=
  (get_company_info RAW_DATA_DIR yf_info json_dumps json_loads).
Local Abbreviation stock_file := (stock_cache_file RAW_DATA_DIR).
Local Abbreviation info_file := (info_cache_file RAW_DATA_DIR).

(** Flattening the columns keeps their number, so an empty table stays
    empty and a table with rows and columns keeps them. *)
Lemma flatten_columns_empty (df0 df : DataFrame) :
  flatten_columns df0 = Ok df → empty df = empty df0.
Proof.
  unfold flatten_columns, set_columns.
  destruct (is_MultiIndex (columns df0)); [|by intros [= ->]].
  destruct (droplevel1 (columns df0)) as [cols|]; simpl; [|done].
  destruct (axis_len cols =? axis_len (columns df0))%nat eqn:E; [|done].
  intros [= <-]. apply Nat.eqb_eq in E. unfold empty. simpl. by rewrite E.
Qed.

Lemma stock_hit (ticker start : string) (end_ : option string) (txt : string)
    (w : World) :
  files w !! stock_file ticker = Some txt →
  stock ticker start end_ true w = (read_csv_text (Some 0%nat) true txt, w).
Proof.
  intros H. unfold get_stock_data.
  rewrite bind_eq, (cache_hit_true _ txt) by done.
  unfold_M. by rewrite H.
Qed.

Lemma stock_miss (ticker start : string) (end_ : option string)
    (use_cache : bool) (w : World) :
  use_cache = false ∨ files w !! stock_file ticker = None →
  stock ticker start end_ use_cache w =
    let r := yf_download (calls w) ticker start end_ in
    let w1 := log_call (Download ticker start end_,
                        result_map (λ df, RTable (Some df)) r) w in
    match result_bind r flatten_columns with
    | Raise e => (Raise e, w1)
    | Ok df =>
        if negb (empty df) then
          if decide (stock_file ticker ∈ denied w) then (Raise OSError, w1)
          else (Ok df, set_files (<[stock_file ticker := to_csv_text true df]>
                                    (files w)) w1)
        else (Ok df, w1)
    end.
Proof.
  intros H. unfold get_stock_data.
  rewrite bind_eq, cache_hit_false by done.
  unfold_M. simpl.
  destruct (yf_download (calls w) ticker start end_) as [df0|]; simpl; [|done].
  destruct (flatten_columns df0) as [df|]; [|done].
  destruct (empty df); simpl; [done |].
  by destruct (decide (stock_file ticker ∈ denied w)).
Qed.

Lemma info_hit (ticker txt : string) (w : World) :
  files w !! info_file ticker = Some txt →
  info ticker true w = (json_loads txt, w).
Proof.
  intros H. unfold get_company_info.
  rewrite bind_eq, (cache_hit_true _ txt) by done.
  unfold_M. by rewrite H.
Qed.

Lemma info_miss (ticker : string) (use_cache : bool) (w : World) :
  use_cache = false ∨ files w !! info_file ticker = None →
  info ticker use_cache w =
    let r := yf_info (calls w) ticker in
    let w1 := log_call (GetInfo ticker, result_map RInfo r) w in
    match r with
    | Raise e => (Raise e, w1)
    | Ok d =>
        if truthy d then
          if decide (info_file ticker ∈ denied w) then (Raise OSError, w1)
          else (Ok (JDict d),
                set_files (<[info_file ticker := json_dumps 4 (JDict d)]>
                             (files w)) w1)
        else (Ok (JDict d), w1)
    end.
Proof.
  intros H. unfold get_company_info.
  rewrite bind_eq, cache_hit_false by done.
  unfold_M. simpl.
  destruct (yf_info (calls w) ticker) as [d|]; simpl; [|done].
  destruct (truthy d); simpl; [|done].
  by destruct (decide (info_file ticker ∈ denied w)).
Qed.

(** Which of the two branches a call takes. *)
Lemma hit_or_miss (use_cache : bool) (p : Path) (w : World) :
  (use_cache = true ∧ ∃ txt, files w !! p = Some txt)
  ∨ (use_cache = false ∨ files w !! p = None).
Proof.
  destruct use_cache; [|by right; left].
  destruct (files w !! p) eqn:E; [left; eauto | right; by right].
Qed.

End Single.

(** ** What follows from the frame of a loop *)

Lemma NoDup_fst_functional {A B : Type} (l : list (A * B)) (x : A) (y1 y2 : B) :
  NoDup l.*1 → (x, y1) ∈ l → (x, y2) ∈ l → y1 = y2.
Proof.
  induction l as [|[a b] l IH]; simpl; intros Hn H1 H2.
  { by apply elem_of_nil in H1. }
  apply NoDup_cons in Hn as [Ha Hn].
  apply elem_of_cons in H1 as [E1 | H1], H2 as [E2 | H2]; simplify_eq; auto.
  - destruct Ha. apply list_elem_of_fmap. by exists (a, y2).
  - destruct Ha. apply list_elem_of_fmap. by exists (a, y1).
Qed.

Section FrameFacts.

Variable to_csv_text : bool → DataFrame → string.
Variable file : string → Path.
Variable with_index : bool.
Variable ticker : string.
Variable use_cache : bool.

Local Abbreviation frame :=
  (loop_frame to_csv_text file with_index ticker use_cache).

Lemma frame_write_once (l : list (string * string)) (w w' : World) :
  frame l w w' → write_once use_cache w w'.
Proof.
  intros (_ & new & Hc & _ & Hf) q. rewrite (new_calls_app _ _ _ Hc).
  destruct (Hf q) as [E | (n & a & df & _ & _ & Hin & _ & Hw & Hno)].
  - rewrite E. split; [by left | done].
  - rewrite Hw. split; [|eauto]. intros Huc. right.
    split; [auto |]. split; [eauto |]. intros ->. by apply elem_of_nil in Hin.
Qed.

(** A sub-kind for which nothing with rows and columns came back keeps its
    file as it was, whether the loop ended or raised. *)
Lemma frame_empty_reply (l : list (string * string)) (w w' : World)
    (name attr : string) (reply : option DataFrame) :
  NoDup l.*1 → NoDup l.*2 →
  (∀ n1 n2, n1 ∈ l.*1 → n2 ∈ l.*1 → file n1 = file n2 → n1 = n2) →
  frame l w w' → (name, attr) ∈ l →
  (GetAttr ticker attr, Ok (RTable reply)) ∈ new_calls w w' →
  reply_nonempty reply = false →
  files w' !! file name = files w !! file name.
Proof.
  intros Hn Ha Hinj (_ & new & Hc & Hs & Hf) Hin Hr Hempty.
  rewrite (new_calls_app _ _ _ Hc) in Hr.
  destruct (Hf (file name)) as [E | (n & a & df & Hl & Hq & Hr' & Hne & _)];
    [done | exfalso].
  assert (n = name) as ->.
  { symmetry. apply Hinj; [| |done]; apply list_elem_of_fmap;
      [by exists (name, attr) | by exists (n, a)]. }
  assert (a = attr) as -> by (by eapply NoDup_fst_functional).
  assert (Hnew : NoDup new.*1).
  { eapply sublist_NoDup; [|exact Hs].
    change (requests ticker l) with ((GetAttr ticker ∘ snd) <$> l).
    rewrite list_fmap_compose.
    apply NoDup_fmap_2; [by intros ?? [=] | done]. }
  pose proof (NoDup_fst_functional _ _ _ _ Hnew Hr Hr') as [= ->].
  simpl in Hempty. by rewrite Hne in Hempty.
Qed.

End FrameFacts.

(** ** A second call after a call that fetched everything *)

Section BundleCalls.

Variable yf_attr : History → string → string → Result (option DataFrame).
Variable to_csv_text : bool → DataFrame → string.
Variable file : string → Path.
Variable with_index : bool.
Variable decode : string → Result DataFrame.
Variable value : option DataFrame → Result DataFrame.
Variable ticker : string.

Local Abbreviation item :=
  (bundle_item yf_attr to_csv_text file with_index decode value ticker).



End BundleCalls.

(** ** A loop after a loop *)

Section BundleAgain.

Variable yf_attr : History → string → string → Result (option DataFrame).
Variable to_csv_text : bool → DataFrame → string.
Variable file : string → Path.
Variable with_index : bool.
Variable decode : string → Result DataFrame.
Variable value : option DataFrame → Result DataFrame.
Variable ticker : string.
Variable l : list (string * string).

Hypothesis names_NoDup : NoDup l.*1.
Hypothesis attrs_NoDup : NoDup l.*2.
Hypothesis files_inj :
  ∀ n1 n2, n1 ∈ l.*1 → n2 ∈ l.*1 → file n1 = file n2 → n1 = n2.

Local Abbreviation loop := (λ use_cache,
  for_each
    (bundle_item yf_attr to_csv_text file with_index decode value ticker use_cache)
    l ∅).

(** A loop that ended made a remote call for every sub-kind it did not
    find in the cache. *)
Lemma loop_fetches (use_cache : bool) (name attr : string)
    (b : gmap string DataFrame) (w w' : World) :
  (name, attr) ∈ l →
  use_cache = false ∨ files w !! file name = None →
  loop use_cache w = (Ok b, w') →
  ∃ r, (GetAttr ticker attr, r) ∈ new_calls w w'.
Proof.
  intros Hin Hm Hrun.
  destruct (for_each_ok _ _ _ _ _ _ _ _ _ _ _ _ _
              names_NoDup attrs_NoDup files_inj Hrun) as [_ Hres].
  destruct (Hres name attr Hin) as [([Huc [s Hs]] & _)
                                   | (_ & reply & v & Hr & _)].
  - destruct Hm; congruence.
  - exists (Ok (RTable reply)). by apply Hr.
Qed.

(** An answer without rows or columns leaves the file of the sub-kind as it
    was, and the next loop asks again unless it finds a file that was
    there before. *)
Lemma loop_empty_reply (use_cache use_cache' : bool) (name attr : string)
    (reply : option DataFrame) (w : World) :
  (name, attr) ∈ l →
  (GetAttr ticker attr, Ok (RTable reply))
    ∈ new_calls w (loop use_cache w).2 →
  reply_nonempty reply = false →
  files (loop use_cache w).2 !! file name = files w !! file name
  ∧ (use_cache' = false ∨ files w !! file name = None →
     ∀ b w2, loop use_cache' (loop use_cache w).2 = (Ok b, w2) →
       ∃ r, (GetAttr ticker attr, r) ∈ new_calls (loop use_cache w).2 w2).
Proof.
  intros Hin Hr Hempty.
  assert (E : files (loop use_cache w).2 !! file name = files w !! file name).
  { eapply frame_empty_reply; eauto using for_each_frame. }
  split; [done |]. intros Hm b w2 Hrun.
  apply (loop_fetches use_cache' name attr b _ w2 Hin); [|done].
  destruct Hm as [? | Hm]; [by left | right; by rewrite E].
Qed.

(** A table with rows and columns that came back is in the bundle of a
    loop that ended, and its file could be written. *)
Lemma loop_keeps_reply (use_cache : bool) (name attr : string)
    (df : DataFrame) (b : gmap string DataFrame) (w w' : World) :
  value (Some df) = Ok df →
  (name, attr) ∈ l →
  loop use_cache w = (Ok b, w') →
  (GetAttr ticker attr, Ok (RTable (Some df))) ∈ new_calls w w' →
  empty df = false →
  b !! name = Some df ∧ file name ∉ denied w.
Proof.
  intros Hv Hin Hrun Hr Hne.
  destruct (for_each_ok _ _ _ _ _ _ _ _ _ _ _ _ _
              names_NoDup attrs_NoDup files_inj Hrun) as [_ Hres].
  destruct (Hres name attr Hin) as [(_ & s & df' & _ & _ & _ & _ & Hno)
                                   | (_ & reply & v & Hr' & Hv' & Hb & Hd & _)].
  - by destruct (Hno _ Hr).
  - apply Hr' in Hr. injection Hr as <-.
    rewrite Hv in Hv'. injection Hv' as <-.
    split; [done |]. apply Hd. simpl. by rewrite Hne.
Qed.

End BundleAgain.

(** ** A write that fails ends the loop *)

Section BundleDenied.

Variable yf_attr : History → string → string → Result (option DataFrame).
Variable to_csv_text : bool → DataFrame → string.
Variable file : string → Path.
Variable with_index : bool.
Variable decode : string → Result DataFrame.
Variable value : option DataFrame → Result DataFrame.
Variable ticker : string.
Variable use_cache : bool.

Local Abbreviation item :=
  (bundle_item yf_attr to_csv_text file with_index decode value ticker use_cache).

(** A turn that raised after a table with rows and columns came back raised
    on the write. *)
Lemma item_raise_inv (acc : gmap string DataFrame) (name attr : string)
    (df : DataFrame) (e : Exc) (w w1 : World) :
  item acc (name, attr) w = (Raise e, w1) →
  (GetAttr ticker attr, Ok (RTable (Some df))) ∈ new_calls w w1 →
  value (Some df) = Ok df → empty df = false →
  e = OSError.
Proof.
  intros H Hin Hv Hne.
  destruct (cached_dec file use_cache w name) as [[Huc [s Hs]] | [_ Hm]].
  - rewrite (item_hit _ _ _ _ _ _ _ _ _ _ _ s) in H by done.
    injection H as _ <-. rewrite new_calls_refl in Hin.
    by apply elem_of_nil in Hin.
  - rewrite item_miss in H by done. cbv zeta in H.
    assert (Hr : yf_attr (calls w) ticker attr = Ok (Some df)).
    { destruct (yf_attr (calls w) ticker attr) as [reply|e'] eqn:Er.
      - assert (new_calls w w1 = [(GetAttr ticker attr, Ok (RTable reply))]) as Hn.
        { destruct (value reply); [|injection H as _ <-; by apply new_calls_app].
          destruct (reply_nonempty reply);
            [destruct (decide _) |]; injection H as _ <-; by apply new_calls_app. }
        rewrite Hn in Hin. apply list_elem_of_singleton in Hin. congruence.
      - injection H as _ <-. erewrite new_calls_app in Hin by reflexivity.
        apply list_elem_of_singleton in Hin. simpl in Hin. congruence. }
    rewrite Hr, Hv in H. simpl in H. rewrite Hne in H. simpl in H.
    destruct (decide _); by simplify_eq.
Qed.

Lemma loop_write_denied (l : list (string * string))
    (acc : gmap string DataFrame) (name attr : string) (df : DataFrame)
    (w : World) :
  NoDup l.*2 →
  value (Some df) = Ok df →
  (name, attr) ∈ l →
  (GetAttr ticker attr, Ok (RTable (Some df)))
    ∈ new_calls w (for_each item l acc w).2 →
  empty df = false →
  file name ∈ denied w →
  (for_each item l acc w).1 = Raise OSError.
Proof.
  intros Ha Hv. revert acc w.
  induction l as [|[n0 a0] l IH]; intros acc w Hin Hr Hne Hd.
  { by apply elem_of_nil in Hin. }
  simpl in Ha. apply NoDup_cons in Ha as [Ha0 Ha].
  pose proof (item_frame yf_attr to_csv_text file with_index decode value
                ticker use_cache acc n0 a0 w) as F0.
  rewrite for_each_cons in Hr |- *.
  destruct (item acc (n0, a0) w) as [[acc1|e] w1] eqn:E0; simpl in F0.
  - pose proof (for_each_frame yf_attr to_csv_text file with_index decode value
                  ticker use_cache l acc1 w1) as F1.
    rewrite (new_calls_trans w w1 _ (frame_calls _ _ _ _ _ _ _ _ F0)
               (frame_calls _ _ _ _ _ _ _ _ F1)) in Hr.
    assert (Htail : ∀ r, (GetAttr ticker a0, r)
                         ∉ new_calls w1 (for_each item l acc1 w1).2).
    { intros r Hin'.
      destruct (frame_new_calls _ _ _ _ _ _ _ _ _ F1 Hin') as (n & a & Hl & [= ->]).
      apply Ha0. apply list_elem_of_fmap. by exists (n, a). }
    apply elem_of_app in Hr as [Hr | Hr].
    + (* the table came back in the first turn, which ended: it was written *)
      exfalso.
      destruct (frame_new_calls _ _ _ _ _ _ _ _ _ F0 Hr) as (n & a & Hl & [= ->]).
      apply list_elem_of_singleton in Hl as [= -> ->].
      assert (name = n0) as ->.
      { apply elem_of_cons in Hin as [[= ->] | Hin]; [done |].
        destruct Ha0. apply list_elem_of_fmap. by exists (name, a0). }
      apply item_ok_inv in E0 as [(_ & s & ? & _ & _ & _ & ->)
                                 | (_ & reply & v & _ & _ & Hn & Hden & _)].
      * rewrite new_calls_refl in Hr. by apply elem_of_nil in Hr.
      * rewrite Hn in Hr. apply list_elem_of_singleton in Hr as [= <-].
        apply Hden; [|done]. simpl. by rewrite Hne.
    + (* it came back in a later turn *)
      apply elem_of_cons in Hin as [[= -> ->] | Hin]; [by destruct (Htail _ Hr) |].
      apply IH; try done. destruct F0 as [-> _]. done.
  - simpl in *.
    destruct (frame_new_calls _ _ _ _ _ _ _ _ _ F0 Hr) as (n & a & Hl & [= ->]).
    apply list_elem_of_singleton in Hl as [= -> ->].
    f_equal. eapply item_raise_inv; eauto.
Qed.

End BundleDenied.

(** ** The claims *)

Lemma statement_value_is_reply : value_is_reply statement_value.
Proof. intros [df|] v; simpl; [by intros [= ->] | done]. Qed.

Lemma holder_value_is_reply : value_is_reply holder_value.
Proof.
  intros [df|] v; simpl.
  - destruct (empty df) eqn:E; simpl; intros [= <-]; [done | by rewrite E].
  - by intros [= <-].
Qed.

Section Claims.

Variable RAW_DATA_DIR : Path.
Variable yf_download : History → string → string → option string → Result DataFrame.
Variable yf_attr : History → string → string → Result (option DataFrame).
Variable yf_info : History → string → Result (list (string * Json)).
Variable to_csv_text : bool → DataFrame → string.
Variable read_csv_text : option nat → bool → string → Result DataFrame.
Variable to_datetime : Axis → Result Axis.
Variable getitem : DataFrame → string → Result Selection.
Variable json_dumps : nat → Json → string.
Variable json_loads : string → Result Json.

Local Abbreviation stock :=
  (get_stock_data RAW_DATA_DIR yf_download to_csv_text read_csv_text).
Local Abbreviation financials :=
  (get_company_financials RAW_DATA_DIR yf_attr to_csv_text read_csv_text
     to_datetime).
Local Abbreviation quarterly :=
  (get_quarterly_financials RAW_DATA_DIR yf_attr to_csv_text read_csv_text
     to_datetime).
Local Abbreviation info :=
  (get_company_info RAW_DATA_DIR yf_info json_dumps json_loads).
Local Abbreviation holders :=
  (get_holders_and_recommendations RAW_DATA_DIR yf_attr to_csv_text
     read_csv_text).
Local Abbreviation treasury :=
  (get_treasury_yield RAW_DATA_DIR yf_download to_csv_text read_csv_text getitem).
Local Abbreviation stock_file := (stock_cache_file RAW_DATA_DIR).
Local Abbreviation financials_file := (financials_cache_file RAW_DATA_DIR).
Local Abbreviation quarterly_file := (quarterly_cache_file RAW_DATA_DIR).
Local Abbreviation info_file := (info_cache_file RAW_DATA_DIR).
Local Abbreviation holders_file := (holders_cache_file RAW_DATA_DIR).
Local Abbreviation statement_adapter :=
  (statement_decode read_csv_text to_datetime).

(** *** C1: the second call *)




(** *** C3: entries are written once under [use_cache = true] *)

Lemma write_once_same (use_cache : bool) (w w' : World) :
  files w' = files w → write_once use_cache w w'.
Proof. intros E q. rewrite E. split; [by left | done]. Qed.

Lemma write_once_insert (use_cache : bool) (p : Path) (txt : string)
    (w w' : World) :
  (use_cache = false ∨ files w !! p = None) →
  new_calls w w' ≠ [] →
  files w' = <[p := txt]> (files w) →
  write_once use_cache w w'.
Proof.
  intros Hm Hnew E q. rewrite E.
  destruct (decide (p = q)) as [<- | Hq].
  - rewrite lookup_insert_eq. split; [|eauto].
    intros ->. right. destruct Hm as [? | Hm]; [done |]. eauto.
  - rewrite lookup_insert_ne by done. split; [by left | done].
Qed.

Lemma stock_write_once (ticker start : string) (end_ : option string)
    (use_cache : bool) (w : World) :
  write_once use_cache w (stock ticker start end_ use_cache w).2.
Proof.
  destruct (hit_or_miss use_cache (stock_file ticker) w) as [[-> [txt Ht]] | Hm].
  - rewrite (stock_hit _ _ _ _ _ _ _ txt) by done. by apply write_once_same.
  - rewrite stock_miss by done. cbv zeta.
    destruct (result_bind _ _) as [df|]; [|by apply write_once_same].
    destruct (negb (empty df)); [|by apply write_once_same].
    destruct (decide _); [by apply write_once_same |].
    eapply write_once_insert; [exact Hm | | done].
    erewrite new_calls_app by reflexivity. done.
Qed.

Lemma info_write_once (ticker : string) (use_cache : bool) (w : World) :
  write_once use_cache w (info ticker use_cache w).2.
Proof.
  destruct (hit_or_miss use_cache (info_file ticker) w) as [[-> [txt Ht]] | Hm].
  - rewrite (info_hit _ _ _ _ _ txt) by done. by apply write_once_same.
  - rewrite info_miss by done. cbv zeta.
    destruct (yf_info _ _) as [d|]; [|by apply write_once_same].
    destruct (truthy d); [|by apply write_once_same].
    destruct (decide _); [by apply write_once_same |].
    eapply write_once_insert; [exact Hm | | done].
    erewrite new_calls_app by reflexivity. done.
Qed.

(** C3, amended.  Whatever its outcome, a call of any of the five accessors
    with [use_cache = true] leaves every existing entry as it is: a file
    differs after the call only if it did not exist before, exists now, and
    a remote call was made (miss, fetch, one write); and no call, with
    either value of [use_cache], removes an entry. *)
Theorem entries_written_once (ticker start : string) (end_ : option string)
    (use_cache : bool) (w : World) :
  write_once use_cache w (stock ticker start end_ use_cache w).2
  ∧ write_once use_cache w (financials ticker use_cache w).2
  ∧ write_once use_cache w (info ticker use_cache w).2
  ∧ write_once use_cache w (quarterly ticker use_cache w).2
  ∧ write_once use_cache w (holders ticker use_cache w).2.
Proof.
  split; [apply stock_write_once |].
  split; [rewrite get_company_financials_loop;
          eapply frame_write_once, for_each_frame |].
  split; [apply info_write_once |].
  split; [rewrite get_quarterly_financials_loop;
          eapply frame_write_once, for_each_frame |].
  rewrite get_holders_and_recommendations_loop.
  eapply frame_write_once, for_each_frame.
Qed.

(** *** C2: an empty answer is not cached *)

Lemma stock_miss_calls (ticker start : string) (end_ : option string)
    (use_cache : bool) (w : World) :
  use_cache = false ∨ files w !! stock_file ticker = None →
  new_calls w (stock ticker start end_ use_cache w).2
  = [(Download ticker start end_,
      result_map (λ df, RTable (Some df))
        (yf_download (calls w) ticker start end_))].
Proof.
  intros Hm. rewrite stock_miss by done. cbv zeta.
  destruct (result_bind _ _) as [df|]; [|by apply new_calls_app].
  destruct (negb (empty df)); [|by apply new_calls_app].
  destruct (decide _); by apply new_calls_app.
Qed.

Lemma info_miss_calls (ticker : string) (use_cache : bool) (w : World) :
  use_cache = false ∨ files w !! info_file ticker = None →
  new_calls w (info ticker use_cache w).2
  = [(GetInfo ticker, result_map RInfo (yf_info (calls w) ticker))].
Proof.
  intros Hm. rewrite info_miss by done. cbv zeta.
  destruct (yf_info _ _) as [d|]; [|by apply new_calls_app].
  destruct (truthy d); [|by apply new_calls_app].
  destruct (decide _); by apply new_calls_app.
Qed.

Lemma stock_empty_fetch (ticker start : string) (end_ : option string)
    (use_cache : bool) (df0 : DataFrame) (w : World) :
  (Download ticker start end_, Ok (RTable (Some df0)))
    ∈ new_calls w (stock ticker start end_ use_cache w).2 →
  empty df0 = true →
  files (stock ticker start end_ use_cache w).2 = files w.
Proof.
  destruct (hit_or_miss use_cache (stock_file ticker) w) as [[-> [txt Ht]] | Hm].
  { by rewrite (stock_hit _ _ _ _ _ _ _ txt) by done. }
  rewrite stock_miss_calls by done. intros Hin%list_elem_of_singleton He.
  rewrite stock_miss by done. cbv zeta.
  destruct (yf_download _ _ _ _) as [df0'|]; simpl in *; [|done].
  injection Hin as ->.
  destruct (flatten_columns df0') as [df|] eqn:Ef; [|done].
  by rewrite (flatten_columns_empty _ _ Ef), He.
Qed.

Lemma info_empty_fetch (ticker : string) (use_cache : bool) (w : World) :
  (GetInfo ticker, Ok (RInfo [])) ∈ new_calls w (info ticker use_cache w).2 →
  files (info ticker use_cache w).2 = files w.
Proof.
  destruct (hit_or_miss use_cache (info_file ticker) w) as [[-> [txt Ht]] | Hm].
  { by rewrite (info_hit _ _ _ _ _ txt) by done. }
  rewrite info_miss_calls by done. intros Hin%list_elem_of_singleton.
  rewrite info_miss by done. cbv zeta.
  destruct (yf_info _ _) as [d|]; simpl in *; [|done].
  by injection Hin as <-.
Qed.

(** C2, amended.  When the provider hands back an empty record for a key
    (a table without rows or columns, an empty mapping, [None] for a
    sub-kind), the call, whatever its outcome, leaves the file of that key
    as it was, so creates no entry; and the next call for the key makes the
    remote call again when the key had no entry before the empty fetch or
    when that next call is made with [use_cache = false] (for a bundle:
    when the next call returns, it has made the remote call of the
    sub-kind).  One statement for each of the five accessors. *)
Theorem empty_fetch_not_cached :
  (∀ ticker start start' end_ end' use_cache use_cache' df0 w,
     (Download ticker start end_, Ok (RTable (Some df0)))
       ∈ new_calls w (stock ticker start end_ use_cache w).2 →
     empty df0 = true →
     files (stock ticker start end_ use_cache w).2 = files w
     ∧ (use_cache' = false ∨ files w !! stock_file ticker = None →
        ∃ r, new_calls (stock ticker start end_ use_cache w).2
               (stock ticker start' end' use_cache'
                  (stock ticker start end_ use_cache w).2).2
             = [(Download ticker start' end', r)]))
  ∧ (∀ ticker use_cache use_cache' name attr reply w,
       (name, attr) ∈ financials_types →
       (GetAttr ticker attr, Ok (RTable reply))
         ∈ new_calls w (financials ticker use_cache w).2 →
       reply_nonempty reply = false →
       files (financials ticker use_cache w).2 !! financials_file ticker name
       = files w !! financials_file ticker name
       ∧ (use_cache' = false ∨ files w !! financials_file ticker name = None →
          ∀ b w2,
            financials ticker use_cache' (financials ticker use_cache w).2
            = (Ok b, w2) →
            ∃ r, (GetAttr ticker attr, r)
                   ∈ new_calls (financials ticker use_cache w).2 w2))
  ∧ (∀ ticker use_cache use_cache' w,
       (GetInfo ticker, Ok (RInfo []))
         ∈ new_calls w (info ticker use_cache w).2 →
       files (info ticker use_cache w).2 = files w
       ∧ (use_cache' = false ∨ files w !! info_file ticker = None →
          ∃ r, new_calls (info ticker use_cache w).2
                 (info ticker use_cache' (info ticker use_cache w).2).2
               = [(GetInfo ticker, r)]))
  ∧ (∀ ticker use_cache use_cache' name attr reply w,
       (name, attr) ∈ quarterly_types →
       (GetAttr ticker attr, Ok (RTable reply))
         ∈ new_calls w (quarterly ticker use_cache w).2 →
       reply_nonempty reply = false →
       files (quarterly ticker use_cache w).2 !! quarterly_file ticker name
       = files w !! quarterly_file ticker name
       ∧ (use_cache' = false ∨ files w !! quarterly_file ticker name = None →
          ∀ b w2,
            quarterly ticker use_cache' (quarterly ticker use_cache w).2
            = (Ok b, w2) →
            ∃ r, (GetAttr ticker attr, r)
                   ∈ new_calls (quarterly ticker use_cache w).2 w2))
  ∧ (∀ ticker use_cache use_cache' name attr reply w,
       (name, attr) ∈ holders_types →
       (GetAttr ticker attr, Ok (RTable reply))
         ∈ new_calls w (holders ticker use_cache w).2 →
       reply_nonempty reply = false →
       files (holders ticker use_cache w).2 !! holders_file ticker name
       = files w !! holders_file ticker name
       ∧ (use_cache' = false ∨ files w !! holders_file ticker name = None →
          ∀ b w2,
            holders ticker use_cache' (holders ticker use_cache w).2
            = (Ok b, w2) →
            ∃ r, (GetAttr ticker attr, r)
                   ∈ new_calls (holders ticker use_cache w).2 w2)).
Proof.
  pose proof types_NoDup as (N1 & N2 & N3 & N4 & N5 & N6).
  split; [|split; [|split; [|split]]].
  - intros ticker start start' end_ end' uc uc' df0 w Hin He.
    pose proof (stock_empty_fetch _ _ _ _ _ _ Hin He) as E.
    split; [done |]. intros Hm. eexists. apply stock_miss_calls.
    rewrite E. exact Hm.
  - intros ticker uc uc' name attr reply w Hin.
    rewrite !get_company_financials_loop.
    intros Hr He.
    destruct (loop_empty_reply yf_attr to_csv_text (financials_file ticker) true
                statement_adapter statement_value ticker financials_types
                N1 N2 (financials_files_inj RAW_DATA_DIR ticker)
                uc uc' name attr reply w Hin Hr He) as [E Hnext].
    split; [done |]. intros Hm b w2. by apply Hnext.
  - intros ticker uc uc' w Hin.
    pose proof (info_empty_fetch _ _ _ Hin) as E.
    split; [done |]. intros Hm. eexists. apply info_miss_calls.
    rewrite E. exact Hm.
  - intros ticker uc uc' name attr reply w Hin.
    rewrite !get_quarterly_financials_loop.
    intros Hr He.
    destruct (loop_empty_reply yf_attr to_csv_text (quarterly_file ticker) true
                statement_adapter statement_value ticker quarterly_types
                N3 N4 (quarterly_files_inj RAW_DATA_DIR ticker)
                uc uc' name attr reply w Hin Hr He) as [E Hnext].
    split; [done |]. intros Hm b w2. by apply Hnext.
  - intros ticker uc uc' name attr reply w Hin.
    rewrite !get_holders_and_recommendations_loop.
    intros Hr He.
    destruct (loop_empty_reply yf_attr to_csv_text (holders_file ticker) false
                (read_csv_text None false) holder_value ticker holders_types
                N5 N6 (holders_files_inj RAW_DATA_DIR ticker)
                uc uc' name attr reply w Hin Hr He) as [E Hnext].
    split; [done |]. intros Hm b w2. by apply Hnext.
Qed.

(** *** C8: the record and the write *)

Lemma bundle_needs_write (file : string → Path) (with_index : bool)
    (decode : string → Result DataFrame)
    (value : option DataFrame → Result DataFrame)
    (ticker : string) (use_cache : bool) (l : list (string * string))
    (name attr : string) (df : DataFrame) (w : World) :
  let run := for_each (bundle_item yf_attr to_csv_text file with_index decode
                         value ticker use_cache) l ∅ w in
  NoDup l.*1 → NoDup l.*2 →
  (∀ n1 n2, n1 ∈ l.*1 → n2 ∈ l.*1 → file n1 = file n2 → n1 = n2) →
  value (Some df) = Ok df →
  (name, attr) ∈ l →
  (GetAttr ticker attr, Ok (RTable (Some df))) ∈ new_calls w run.2 →
  empty df = false →
  (file name ∈ denied w → run.1 = Raise OSError)
  ∧ (∀ b, run.1 = Ok b → b !! name = Some df).
Proof.
  intros run Hn Ha Hinj Hv Hin Hr Hne. split.
  - intros Hd. by eapply loop_write_denied.
  - destruct run as [[b|e] w'] eqn:E; simpl in *; [|done].
    destruct (loop_keeps_reply _ _ _ _ _ _ _ _ Hn Ha Hinj _ _ _ _ _ _ _
                Hv Hin E Hr Hne) as [Hb Hd].
    by intros ? [= <-].
Qed.

(** C8, amended.  When the provider hands back a record with content, the
    caller gets it when the cache write that follows succeeds; when the
    write fails the call raises [OSError] and returns nothing.  For the
    price series and the metadata: the call returns the record when the
    file can be written and raises [OSError] when it cannot.  For a bundle:
    a call that returns has the table in the bundle, and a call whose file
    for the sub-kind cannot be written raises [OSError].  One statement for
    each of the five accessors. *)
Theorem fetched_record_needs_write :
  (∀ ticker start end_ use_cache df0 df w,
     (Download ticker start end_, Ok (RTable (Some df0)))
       ∈ new_calls w (stock ticker start end_ use_cache w).2 →
     flatten_columns df0 = Ok df → empty df = false →
     (stock ticker start end_ use_cache w).1
     = if decide (stock_file ticker ∈ denied w) then Raise OSError else Ok df)
  ∧ (∀ ticker use_cache name attr df w,
       (name, attr) ∈ financials_types →
       (GetAttr ticker attr, Ok (RTable (Some df)))
         ∈ new_calls w (financials ticker use_cache w).2 →
       empty df = false →
       (financials_file ticker name ∈ denied w →
        (financials ticker use_cache w).1 = Raise OSError)
       ∧ (∀ b, (financials ticker use_cache w).1 = Ok b → b !! name = Some df))
  ∧ (∀ ticker use_cache d w,
       (GetInfo ticker, Ok (RInfo d))
         ∈ new_calls w (info ticker use_cache w).2 →
       d ≠ [] →
       (info ticker use_cache w).1
       = if decide (info_file ticker ∈ denied w) then Raise OSError
         else Ok (JDict d))
  ∧ (∀ ticker use_cache name attr df w,
       (name, attr) ∈ quarterly_types →
       (GetAttr ticker attr, Ok (RTable (Some df)))
         ∈ new_calls w (quarterly ticker use_cache w).2 →
       empty df = false →
       (quarterly_file ticker name ∈ denied w →
        (quarterly ticker use_cache w).1 = Raise OSError)
       ∧ (∀ b, (quarterly ticker use_cache w).1 = Ok b → b !! name = Some df))
  ∧ (∀ ticker use_cache name attr df w,
       (name, attr) ∈ holders_types →
       (GetAttr ticker attr, Ok (RTable (Some df)))
         ∈ new_calls w (holders ticker use_cache w).2 →
       empty df = false →
       (holders_file ticker name ∈ denied w →
        (holders ticker use_cache w).1 = Raise OSError)
       ∧ (∀ b, (holders ticker use_cache w).1 = Ok b → b !! name = Some df)).
Proof.
  pose proof types_NoDup as (N1 & N2 & N3 & N4 & N5 & N6).
  split; [|split; [|split; [|split]]].
  - intros ticker start end_ uc df0 df w.
    destruct (hit_or_miss uc (stock_file ticker) w) as [[-> [txt Ht]] | Hm].
    { rewrite (stock_hit _ _ _ _ _ _ _ txt) by done. simpl.
      rewrite new_calls_refl. by intros ?%elem_of_nil. }
    rewrite stock_miss_calls by done. intros Hin%list_elem_of_singleton Hf Hne.
    rewrite stock_miss by done. cbv zeta.
    destruct (yf_download _ _ _ _) as [df0'|]; simpl in *; [|done].
    injection Hin as ->. rewrite Hf, Hne. simpl.
    by destruct (decide _).
  - intros ticker uc name attr df w. rewrite get_company_financials_loop.
    intros. eapply bundle_needs_write; eauto.
    apply financials_files_inj.
  - intros ticker uc d w.
    destruct (hit_or_miss uc (info_file ticker) w) as [[-> [txt Ht]] | Hm].
    { rewrite (info_hit _ _ _ _ _ txt) by done. simpl.
      rewrite new_calls_refl. by intros ?%elem_of_nil. }
    rewrite info_miss_calls by done. intros Hin%list_elem_of_singleton Hne.
    rewrite info_miss by done. cbv zeta.
    destruct (yf_info _ _) as [d'|]; simpl in *; [|done].
    injection Hin as ->. destruct d'; [done |]. simpl.
    by destruct (decide _).
  - intros ticker uc name attr df w. rewrite get_quarterly_financials_loop.
    intros. eapply bundle_needs_write; eauto.
    apply quarterly_files_inj.
  - intros ticker uc name attr df w. rewrite get_holders_and_recommendations_loop.
    intros Hin Hr Hne. eapply bundle_needs_write; eauto.
    + apply holders_files_inj.
    + simpl. by rewrite Hne.
Qed.

(** *** C5: a bundle is resolved sub-kind by sub-kind *)

Lemma bundle_resolved (file : string → Path) (with_index : bool)
    (decode : string → Result DataFrame)
    (value : option DataFrame → Result DataFrame)
    (ticker : string) (use_cache : bool) (l : list (string * string))
    (b : gmap string DataFrame) (w w' : World) (name attr : string) :
  NoDup l.*1 → NoDup l.*2 →
  (∀ n1 n2, n1 ∈ l.*1 → n2 ∈ l.*1 → file n1 = file n2 → n1 = n2) →
  for_each (bundle_item yf_attr to_csv_text file with_index decode value
              ticker use_cache) l ∅ w = (Ok b, w') →
  (name, attr) ∈ l →
  (cached file use_cache w name →
   from_cache file decode ticker w w' b name attr)
  ∧ (¬ cached file use_cache w name →
     by_fetch to_csv_text file with_index value ticker w w' b name attr).
Proof.
  intros Hn Ha Hinj Hrun Hin.
  destruct (for_each_ok _ _ _ _ _ _ _ _ _ _ _ _ _ Hn Ha Hinj Hrun) as [_ Hres].
  destruct (Hres name attr Hin) as [[Hc H] | [Hc H]]; split; done.
Qed.


(** *** C7: headers that are no dates *)

Lemma reparse_headers_fail (df : DataFrame) (e : Exc) :
  to_datetime (columns df) = Raise e → reparse_headers to_datetime df = df.
Proof. intros H. unfold reparse_headers. by rewrite H. Qed.

Lemma statement_read_keeps_headers (file : string → Path) (ticker : string)
    (l : list (string * string)) (name attr s : string) (df : DataFrame)
    (e : Exc) (acc : gmap string DataFrame) (w : World) :
  NoDup l.*1 → NoDup l.*2 →
  (∀ n1 n2, n1 ∈ l.*1 → n2 ∈ l.*1 → file n1 = file n2 → n1 = n2) →
  (name, attr) ∈ l →
  files w !! file name = Some s →
  read_csv_text (Some 0%nat) false s = Ok df →
  to_datetime (columns df) = Raise e →
  bundle_item yf_attr to_csv_text file true statement_adapter statement_value
    ticker true acc (name, attr) w = (Ok (<[name := df]> acc), w)
  ∧ ∀ b w',
      for_each (bundle_item yf_attr to_csv_text file true statement_adapter
                  statement_value ticker true) l ∅ w = (Ok b, w') →
      b !! name = Some df.
Proof.
  intros Hn Ha Hinj Hin Hs Hread Hdate.
  assert (Hdec : statement_adapter s = Ok df).
  { unfold statement_decode. rewrite Hread. simpl.
    by rewrite (reparse_headers_fail _ e). }
  split.
  - rewrite (item_hit _ _ _ _ _ _ _ _ _ _ _ s) by done. by rewrite Hdec.
  - intros b w' Hrun.
    destruct (bundle_resolved _ _ _ _ _ _ _ _ _ _ _ _ Hn Ha Hinj Hrun Hin)
      as [H _].
    destruct H as (s' & df' & Hs' & Hd' & Hb & _); [split; eauto |].
    congruence.
Qed.

(** C7.  A cached statement file that parses as a table [df] whose headers
    [pd.to_datetime] refuses is read all the same: the turn of the loop for
    that sub-kind ends without exception, leaves the world as it is and
    binds the sub-kind to [df], string headers unchanged; so does every call
    of the accessor that returns.  For the annual and for the quarterly
    statements. *)
Theorem header_reparse_failure_swallowed :
  (∀ ticker name attr s df e acc w,
     (name, attr) ∈ financials_types →
     files w !! financials_file ticker name = Some s →
     read_csv_text (Some 0%nat) false s = Ok df →
     to_datetime (columns df) = Raise e →
     financials_item RAW_DATA_DIR yf_attr to_csv_text read_csv_text to_datetime
       ticker true acc (name, attr) w = (Ok (<[name := df]> acc), w)
     ∧ ∀ b w', financials ticker true w = (Ok b, w') → b !! name = Some df)
  ∧ (∀ ticker name attr s df e acc w,
       (name, attr) ∈ quarterly_types →
       files w !! quarterly_file ticker name = Some s →
       read_csv_text (Some 0%nat) false s = Ok df →
       to_datetime (columns df) = Raise e →
       quarterly_item RAW_DATA_DIR yf_attr to_csv_text read_csv_text to_datetime
         ticker true acc (name, attr) w = (Ok (<[name := df]> acc), w)
       ∧ ∀ b w', quarterly ticker true w = (Ok b, w') → b !! name = Some df).
Proof.
  pose proof types_NoDup as (N1 & N2 & N3 & N4 & N5 & N6).
  split.
  - intros ticker name attr s df e acc w Hin Hs Hr Hd.
    rewrite financials_item_bundle.
    destruct (statement_read_keeps_headers (financials_file ticker) ticker
                financials_types name attr s df e acc w N1 N2
                (financials_files_inj RAW_DATA_DIR ticker) Hin Hs Hr Hd)
      as [Hitem Hcall].
    split; [done |]. intros b w'. rewrite get_company_financials_loop.
    apply Hcall.
  - intros ticker name attr s df e acc w Hin Hs Hr Hd.
    rewrite quarterly_item_bundle.
    destruct (statement_read_keeps_headers (quarterly_file ticker) ticker
                quarterly_types name attr s df e acc w N3 N4
                (quarterly_files_inj RAW_DATA_DIR ticker) Hin Hs Hr Hd)
      as [Hitem Hcall].
    split; [done |]. intros b w'. rewrite get_quarterly_financials_loop.
    apply Hcall.
Qed.

(** *** C9: the risk-free rate *)

(** C9.  [get_treasury_yield] is the [Close] column of [get_stock_data] on
    the same arguments: same exception when there is one, same world
    afterwards, hence the same remote calls and no other.  A caller that
    leaves [ticker] or [start] out gets ["^TNX"] and ["2019-01-01"]; [end]
    and [use_cache] left out are left out of the call of [get_stock_data]
    too, whose defaults for them are the same. *)
Theorem treasury_yield_is_close_column
    (ticker start : option string) (end_ : option (option string))
    (use_cache : option bool) (w : World) :
  get_treasury_yield_call RAW_DATA_DIR yf_download to_csv_text read_csv_text
    getitem ticker start end_ use_cache w
  = close_column getitem
      (get_stock_data_call RAW_DATA_DIR yf_download to_csv_text read_csv_text
         (default "^TNX" ticker) (Some (default "2019-01-01" start))
         end_ use_cache) w
  ∧ (get_treasury_yield_call RAW_DATA_DIR yf_download to_csv_text read_csv_text
       getitem ticker start end_ use_cache w).2
    = (get_stock_data_call RAW_DATA_DIR yf_download to_csv_text read_csv_text
         (default "^TNX" ticker) (Some (default "2019-01-01" start))
         end_ use_cache w).2.
Proof.
  unfold get_treasury_yield_call, get_stock_data_call, get_treasury_yield,
    close_column. simpl. rewrite bind_eq.
  by destruct (get_stock_data _ _ _ _ _ _ _ _ w) as [[df|e] w'].
Qed.

(** *** C10: holders and recommendations *)

(** C10.  A call of [get_holders_and_recommendations] that returns binds
    each of the three sub-kinds to a table; and a sub-kind for which the
    remote call of this call gave [None] or a table without rows or columns
    is bound to a new empty table, its file left as it was: nothing is
    written for it. *)
Theorem holders_bound_to_tables (ticker : string) (use_cache : bool)
    (b : gmap string DataFrame) (w w' : World) (name attr : string) :
  holders ticker use_cache w = (Ok b, w') →
  (name, attr) ∈ holders_types →
  is_Some (b !! name)
  ∧ ∀ reply,
      (GetAttr ticker attr, Ok (RTable reply)) ∈ new_calls w w' →
      reply = None ∨ (∃ df, reply = Some df ∧ empty df = true) →
      b !! name = Some DataFrame_new
      ∧ files w' !! holders_file ticker name = files w !! holders_file ticker name.
Proof.
  pose proof types_NoDup as (N1 & N2 & N3 & N4 & N5 & N6).
  rewrite get_holders_and_recommendations_loop. intros Hrun Hin.
  destruct (for_each_ok _ _ _ _ _ _ _ _ _ _ _ _ _ N5 N6
              (holders_files_inj RAW_DATA_DIR ticker) Hrun) as [_ Hres].
  destruct (Hres name attr Hin) as [(_ & s & df & _ & _ & Hb & _ & Hno)
                                   | (_ & reply' & v & Hr & Hv & Hb & _ & Hf)].
  - split; [eauto |]. intros reply Hin' _. by destruct (Hno _ Hin').
  - split; [eauto |]. intros reply Hin' Hempty.
    apply Hr in Hin'. injection Hin' as ->.
    destruct Hempty as [-> | (df & -> & He)]; simpl in *.
    + injection Hv as <-. done.
    + rewrite He in Hv, Hf. simpl in *. injection Hv as <-. done.
Qed.

End Claims.

(** ** The claims on examples *)

(** The delisted ["ZZZZ"]: the bundle of annual statements has three empty
    tables and no file is created. *)
Example delisted_statements :
  Stub.financials "ZZZZ" true Stub.cold
  = (Ok (<["income_stmt" := DataFrame_new]>
           (<["balance_sheet" := DataFrame_new]>
              (<["cashflow" := DataFrame_new]> ∅))),
     MkWorld ∅ ∅
       [(GetAttr "ZZZZ" "financials", Ok (RTable (Some DataFrame_new)));
        (GetAttr "ZZZZ" "balance_sheet", Ok (RTable (Some DataFrame_new)));
        (GetAttr "ZZZZ" "cashflow", Ok (RTable (Some DataFrame_new)))]).
Proof. vm_compute. reflexivity. Qed.

(** The annual statements of ["ACME"], twice: three remote calls and three
    files the first time; the second time no remote call, the world is the
    same, and the headers, strings in the files, are dates again. *)
Example statements_twice :
  ∃ b w1,
    Stub.financials "ACME" true Stub.cold = (Ok b, w1)
    ∧ length (calls w1) = 3
    ∧ size (files w1) = 3
    ∧ Stub.financials "ACME" true w1 = (Ok b, w1).
Proof.
  exists (<["income_stmt" := Stub.acme_statement]>
            (<["balance_sheet" := Stub.acme_statement]>
               (<["cashflow" := Stub.acme_statement]> ∅))),
    (Stub.financials "ACME" true Stub.cold).2.
  repeat split; vm_compute; reflexivity.
Qed.

(** The risk-free rate on the stub: the [Close] column of the price
    series. *)
Example treasury_close :
  (Stub.treasury "ACME" "2023-01-01" None true Stub.cold).1
  = Ok (SelSeries (Index [LDate 19359; LDate 19360]) (LStr "Close")
          [CFloat 25 2; CFloat 203 (-1)]).
Proof. vm_compute. reflexivity. Qed.


(** C2, as stated, fails: an old price file of ["ZZZZ"] is in the cache, a
    call with [use_cache = false] fetches an empty table and leaves the
    file there, and the next call, with [use_cache = true], reads that file
    and makes no remote call. *)
Lemma empty_fetch_then_cache_hit :
  new_calls Stub.stale (Stub.stock "ZZZZ" "2023-01-01" None false Stub.stale).2
  = [(Download "ZZZZ" "2023-01-01" None, Ok (RTable (Some DataFrame_new)))]
  ∧ empty DataFrame_new = true
  ∧ new_calls (Stub.stock "ZZZZ" "2023-01-01" None false Stub.stale).2
      (Stub.stock "ZZZZ" "2023-01-01" None true
         (Stub.stock "ZZZZ" "2023-01-01" None false Stub.stale).2).2
    = [].
Proof. repeat split; vm_compute; reflexivity. Qed.

(** ["ZZZZ"] with no cache: the empty answer writes nothing and the next
    call asks the provider again. *)
Lemma empty_fetch_not_cached_witness :
  (Download "ZZZZ" "2023-01-01" None, Ok (RTable (Some DataFrame_new)))
    ∈ new_calls Stub.cold (Stub.stock "ZZZZ" "2023-01-01" None true Stub.cold).2
  ∧ empty DataFrame_new = true
  ∧ files (Stub.stock "ZZZZ" "2023-01-01" None true Stub.cold).2
    = files Stub.cold
  ∧ ∃ r, new_calls (Stub.stock "ZZZZ" "2023-01-01" None true Stub.cold).2
           (Stub.stock "ZZZZ" "2023-01-01" None true
              (Stub.stock "ZZZZ" "2023-01-01" None true Stub.cold).2).2
         = [(Download "ZZZZ" "2023-01-01" None, r)].
Proof.
  assert (H1 : (Download "ZZZZ" "2023-01-01" None,
                Ok (RTable (Some DataFrame_new)))
               ∈ new_calls Stub.cold
                   (Stub.stock "ZZZZ" "2023-01-01" None true Stub.cold).2)
    by (vm_compute; constructor).
  assert (H2 : empty DataFrame_new = true) by reflexivity.
  destruct (proj1 (empty_fetch_not_cached data_raw Stub.yf_download Stub.yf_attr
                     Stub.yf_info Stub.to_csv_text Stub.read_csv_text
                     Stub.to_datetime Stub.json_dumps Stub.json_loads)
              "ZZZZ" "2023-01-01" "2023-01-01" None None true true
              DataFrame_new Stub.cold H1 H2) as [E Hnext].
  split; [exact H1 |]. split; [exact H2 |]. split; [exact E |].
  apply Hnext. right. reflexivity.
Defined.

(** C3, as stated, fails: the price file of ["ACME"], written by a first
    fetch, is replaced by a later call with [use_cache = false] that gets
    other rows. *)
Lemma cache_entry_overwritten :
  Stub.stock "ACME" "2023-01-01" None true Stub.cold
  = (Ok Stub.acme_prices, Stub.warm)
  ∧ files Stub.warm !! stock_cache_file data_raw "ACME" = Some Stub.prices_text
  ∧ files (Stub.stock "ACME" "2019-01-01" None false Stub.warm).2
      !! stock_cache_file data_raw "ACME"
    = Some Stub.prices_2019_text
  ∧ Stub.prices_text ≠ Stub.prices_2019_text.
Proof.
  split; [vm_compute; reflexivity |].
  split; [vm_compute; reflexivity |].
  split; [vm_compute; reflexivity | discriminate].
Qed.

(** C8, as stated, fails: the provider hands back the two rows of ["ACME"],
    the file cannot be written, and the call raises [OSError] instead of
    returning the rows. *)
Lemma write_failure_loses_record :
  new_calls Stub.readonly
    (Stub.stock "ACME" "2023-01-01" None true Stub.readonly).2
  = [(Download "ACME" "2023-01-01" None, Ok (RTable (Some Stub.acme_prices)))]
  ∧ empty Stub.acme_prices = false
  ∧ (Stub.stock "ACME" "2023-01-01" None true Stub.readonly).1 = Raise OSError.
Proof. repeat split; vm_compute; reflexivity. Qed.

(** With a writable cache the two rows of ["ACME"] are returned. *)
Lemma fetched_record_needs_write_witness :
  (Download "ACME" "2023-01-01" None, Ok (RTable (Some Stub.acme_prices)))
    ∈ new_calls Stub.cold (Stub.stock "ACME" "2023-01-01" None true Stub.cold).2
  ∧ flatten_columns Stub.acme_prices = Ok Stub.acme_prices
  ∧ empty Stub.acme_prices = false
  ∧ (Stub.stock "ACME" "2023-01-01" None true Stub.cold).1
    = Ok Stub.acme_prices.
Proof.
  assert (H1 : (Download "ACME" "2023-01-01" None,
                Ok (RTable (Some Stub.acme_prices)))
               ∈ new_calls Stub.cold
                   (Stub.stock "ACME" "2023-01-01" None true Stub.cold).2)
    by (vm_compute; constructor).
  assert (H2 : flatten_columns Stub.acme_prices = Ok Stub.acme_prices)
    by reflexivity.
  assert (H3 : empty Stub.acme_prices = false) by reflexivity.
  split; [exact H1 |]. split; [exact H2 |]. split; [exact H3 |].
  exact (proj1 (fetched_record_needs_write data_raw Stub.yf_download
                  Stub.yf_attr Stub.yf_info Stub.to_csv_text Stub.read_csv_text
                  Stub.to_datetime Stub.json_dumps Stub.json_loads)
           "ACME" "2023-01-01" None true Stub.acme_prices Stub.acme_prices
           Stub.cold H1 H2 H3).
Defined.


(** The cached balance sheet has the header ["TTM"], which is no date: it
    is read with that header. *)
Lemma header_reparse_failure_swallowed_witness :
  ("balance_sheet", "balance_sheet") ∈ financials_types
  ∧ files Stub.partial !! financials_cache_file data_raw "ACME" "balance_sheet"
    = Some Stub.ttm_text
  ∧ Stub.read_csv_text (Some 0%nat) false Stub.ttm_text = Ok Stub.ttm_statement
  ∧ Stub.to_datetime (columns Stub.ttm_statement) = Raise ValueError
  ∧ financials_item data_raw Stub.yf_attr Stub.to_csv_text Stub.read_csv_text
      Stub.to_datetime "ACME" true ∅ ("balance_sheet", "balance_sheet")
      Stub.partial
    = (Ok (<["balance_sheet" := Stub.ttm_statement]> ∅), Stub.partial).
Proof.
  assert (H1 : ("balance_sheet", "balance_sheet") ∈ financials_types)
    by (repeat constructor).
  assert (H2 : files Stub.partial
                 !! financials_cache_file data_raw "ACME" "balance_sheet"
               = Some Stub.ttm_text) by (vm_compute; reflexivity).
  assert (H3 : Stub.read_csv_text (Some 0%nat) false Stub.ttm_text
               = Ok Stub.ttm_statement) by reflexivity.
  assert (H4 : Stub.to_datetime (columns Stub.ttm_statement) = Raise ValueError)
    by reflexivity.
  split; [exact H1 |]. split; [exact H2 |]. split; [exact H3 |].
  split; [exact H4 |].
  exact (proj1 (proj1 (header_reparse_failure_swallowed data_raw Stub.yf_attr
                         Stub.to_csv_text Stub.read_csv_text Stub.to_datetime)
                  "ACME" "balance_sheet" "balance_sheet" Stub.ttm_text
                  Stub.ttm_statement ValueError ∅ Stub.partial H1 H2 H3 H4)).
Defined.

(** An identifier for which the provider gives [None]: three new empty
    tables, nothing written. *)
Lemma holders_bound_to_tables_witness :
  Stub.holders "NONE" true Stub.cold
  = (Ok Stub.unknown_bundle, Stub.unknown_after)
  ∧ ("major_holders", "major_holders") ∈ holders_types
  ∧ (GetAttr "NONE" "major_holders", Ok (RTable None))
      ∈ new_calls Stub.cold Stub.unknown_after
  ∧ is_Some (Stub.unknown_bundle !! "major_holders")
  ∧ Stub.unknown_bundle !! "major_holders" = Some DataFrame_new
  ∧ files Stub.unknown_after !! holders_cache_file data_raw "NONE" "major_holders"
    = files Stub.cold !! holders_cache_file data_raw "NONE" "major_holders".
Proof.
  assert (H1 : Stub.holders "NONE" true Stub.cold
               = (Ok Stub.unknown_bundle, Stub.unknown_after))
    by (vm_compute; reflexivity).
  assert (H2 : ("major_holders", "major_holders") ∈ holders_types)
    by (repeat constructor).
  assert (H3 : (GetAttr "NONE" "major_holders", Ok (RTable None))
               ∈ new_calls Stub.cold Stub.unknown_after)
    by (vm_compute; repeat constructor).
  destruct (holders_bound_to_tables data_raw Stub.yf_attr Stub.to_csv_text
              Stub.read_csv_text "NONE" true Stub.unknown_bundle Stub.cold
              Stub.unknown_after "major_holders" "major_holders" H1 H2)
    as [Hsome Hnone].
  destruct (Hnone None H3 (or_introl eq_refl)) as [Hb Hf].
  split; [exact H1 |]. split; [exact H2 |]. split; [exact H3 |].
  split; [exact Hsome |]. split; [exact Hb | exact Hf].
Defined.

(** * More properties of the accessors *)

(** ** The turn of a loop that made a given remote call *)

Section BundleEntry.

Variable yf_attr : History → string → string → Result (option DataFrame).
Variable to_csv_text : bool → DataFrame → string.
Variable file : string → Path.
Variable with_index : bool.
Variable decode : string → Result DataFrame.
Variable value : option DataFrame → Result DataFrame.
Variable ticker : string.
Variable use_cache : bool.

Local Abbreviation item :=
  (bundle_item yf_attr to_csv_text file with_index decode value ticker use_cache).

(** A turn that logged a call took the fetching branch, and the call it
    logged is the answer of the provider. *)
Lemma item_logged (acc : gmap string DataFrame) (name attr : string)
    (c : Request * Result Reply) (w : World) :
  c ∈ new_calls w (item acc (name, attr) w).2 →
  (use_cache = false ∨ files w !! file name = None)
  ∧ c = (GetAttr ticker attr, result_map RTable (yf_attr (calls w) ticker attr)).
Proof.
  destruct (cached_dec file use_cache w name) as [[Huc [s Hs]] | [_ Hm]].
  - rewrite (item_hit _ _ _ _ _ _ _ _ _ _ _ s) by done. simpl.
    rewrite new_calls_refl. by intros ?%elem_of_nil.
  - intros Hin. split; [done |].
    rewrite item_miss in Hin by done. cbv zeta in Hin.
    assert (new_calls w
              (log_call (GetAttr ticker attr,
                         result_map RTable (yf_attr (calls w) ticker attr)) w)
            = [(GetAttr ticker attr,
                result_map RTable (yf_attr (calls w) ticker attr))]) as Hn
      by (by apply new_calls_app).
    destruct (yf_attr (calls w) ticker attr) as [reply|e]; simpl in *.
    + destruct (value reply); simpl in Hin.
      * destruct (reply_nonempty reply); [destruct (decide _) |]; simpl in Hin;
          try (rewrite Hn in Hin; by apply list_elem_of_singleton in Hin).
        erewrite new_calls_app in Hin by reflexivity.
        by apply list_elem_of_singleton in Hin.
      * rewrite Hn in Hin. by apply list_elem_of_singleton in Hin.
    + rewrite Hn in Hin. by apply list_elem_of_singleton in Hin.
Qed.

(** The remote call of a sub-kind found in the log of a loop, whether the
    loop ended or raised, was made by the turn of that sub-kind: the turns
    before it ended and left its file alone, and the loop went on from that
    turn. *)
Lemma loop_entry_inv (l : list (string * string)) (acc : gmap string DataFrame)
    (name attr : string) (r : Result Reply) (w : World) :
  NoDup l.*1 → NoDup l.*2 →
  (∀ n1 n2, n1 ∈ l.*1 → n2 ∈ l.*1 → file n1 = file n2 → n1 = n2) →
  (name, attr) ∈ l →
  (GetAttr ticker attr, r) ∈ new_calls w (for_each item l acc w).2 →
  ∃ l0 l' acc0 w0,
    l = l0 ++ (name, attr) :: l' ∧
    denied w0 = denied w ∧
    files w0 !! file name = files w !! file name ∧
    (use_cache = false ∨ files w0 !! file name = None) ∧
    r = result_map RTable (yf_attr (calls w0) ticker attr) ∧
    for_each item l acc w =
      match item acc0 (name, attr) w0 with
      | (Ok acc1, w1) => for_each item l' acc1 w1
      | (Raise e, w1) => (Raise e, w1)
      end.
Proof.
  revert acc w. induction l as [|[n0 a0] l IH]; intros acc w Hn Ha Hinj Hin Hr.
  { by apply elem_of_nil in Hin. }
  simpl in Hn, Ha. apply NoDup_cons in Hn as [Hn0 Hn], Ha as [Ha0 Ha].
  pose proof (item_frame yf_attr to_csv_text file with_index decode value
                ticker use_cache acc n0 a0 w) as F0.
  pose proof (item_logged acc n0 a0 (GetAttr ticker attr, r) w) as Hlog.
  rewrite for_each_cons in Hr.
  assert (Hhead : (GetAttr ticker attr, r)
                    ∈ new_calls w (item acc (n0, a0) w).2 →
                  ∃ l0 l' acc0 w0,
                    (n0, a0) :: l = l0 ++ (name, attr) :: l' ∧
                    denied w0 = denied w ∧
                    files w0 !! file name = files w !! file name ∧
                    (use_cache = false ∨ files w0 !! file name = None) ∧
                    r = result_map RTable (yf_attr (calls w0) ticker attr) ∧
                    for_each item ((n0, a0) :: l) acc w =
                      match item acc0 (name, attr) w0 with
                      | (Ok acc1, w1) => for_each item l' acc1 w1
                      | (Raise e, w1) => (Raise e, w1)
                      end).
  { intros Hc. destruct (Hlog Hc) as [Hm [= -> ->]].
    assert (name = n0) as ->.
    { apply elem_of_cons in Hin as [[= ->] | Hin]; [done |].
      destruct Ha0. apply list_elem_of_fmap. by exists (name, a0). }
    exists [], l, acc, w. repeat split; auto. }
  destruct (item acc (n0, a0) w) as [[acc1|e] w1] eqn:E0; simpl in F0, Hhead;
    [|by apply Hhead].
  pose proof (for_each_frame yf_attr to_csv_text file with_index decode value
                ticker use_cache l acc1 w1) as F1.
  rewrite (new_calls_trans w w1 _ (frame_calls _ _ _ _ _ _ _ _ F0)
             (frame_calls _ _ _ _ _ _ _ _ F1)) in Hr.
  apply elem_of_app in Hr as [Hr | Hr]; [by apply Hhead |].
  assert (Hin' : (name, attr) ∈ l).
  { apply elem_of_cons in Hin as [[= -> ->] | Hin]; [|done].
    destruct (frame_new_calls _ _ _ _ _ _ _ _ _ F1 Hr) as (n & a & Hl & [= ->]).
    destruct Ha0. apply list_elem_of_fmap. by exists (n, a). }
  destruct (IH acc1 w1 Hn Ha) as (l0 & l' & acc0 & w0 & -> & Hd & Hf & Hm & Hrr & Hrun);
    try done.
  { intros n1 n2 H1 H2. apply Hinj; apply elem_of_cons; by right. }
  exists ((n0, a0) :: l0), l', acc0, w0.
  split; [done |]. split; [destruct F0 as [<- _]; done |].
  split.
  { rewrite Hf. eapply frame_other_file; [exact F0 |].
    intros n a Hl Heq. apply list_elem_of_singleton in Hl as [= -> ->].
    apply Hinj in Heq.
    - subst. destruct Hn0. apply list_elem_of_fmap. by exists (name, attr).
    - apply elem_of_cons; by left.
    - apply elem_of_cons; right. apply list_elem_of_fmap. by exists (name, attr). }
  split; [done |]. split; [done |].
  by rewrite for_each_cons, E0.
Qed.

End BundleEntry.

(** ** What a logged answer tells about the outcome of the loop *)

Section BundleReplies.

Variable yf_attr : History → string → string → Result (option DataFrame).
Variable to_csv_text : bool → DataFrame → string.
Variable file : string → Path.
Variable with_index : bool.
Variable decode : string → Result DataFrame.
Variable value : option DataFrame → Result DataFrame.
Variable ticker : string.
Variable use_cache : bool.
Variable l : list (string * string).

Hypothesis names_NoDup : NoDup l.*1.
Hypothesis attrs_NoDup : NoDup l.*2.
Hypothesis files_inj :
  ∀ n1 n2, n1 ∈ l.*1 → n2 ∈ l.*1 → file n1 = file n2 → n1 = n2.

Local Abbreviation item :=
  (bundle_item yf_attr to_csv_text file with_index decode value ticker use_cache).

(** An exception of the provider is the outcome of the loop. *)
Lemma loop_provider_error (acc : gmap string DataFrame) (name attr : string)
    (e : Exc) (w : World) :
  (name, attr) ∈ l →
  (GetAttr ticker attr, Raise e) ∈ new_calls w (for_each item l acc w).2 →
  (for_each item l acc w).1 = Raise e.
Proof.
  intros Hin Hr.
  destruct (loop_entry_inv _ _ _ _ _ _ _ _ _ _ _ _ _ _ names_NoDup attrs_NoDup
              files_inj Hin Hr)
    as (l0 & l' & acc0 & w0 & _ & _ & _ & Hm & Hrr & ->).
  rewrite item_miss by done. cbv zeta.
  destruct (yf_attr (calls w0) ticker attr) as [reply|e']; [done |].
  simpl in Hrr. by injection Hrr as ->.
Qed.

(** So is the exception raised on the answer itself. *)
Lemma loop_value_error (acc : gmap string DataFrame) (name attr : string)
    (reply : option DataFrame) (e : Exc) (w : World) :
  (name, attr) ∈ l →
  (GetAttr ticker attr, Ok (RTable reply))
    ∈ new_calls w (for_each item l acc w).2 →
  value reply = Raise e →
  (for_each item l acc w).1 = Raise e.
Proof.
  intros Hin Hr Hv.
  destruct (loop_entry_inv _ _ _ _ _ _ _ _ _ _ _ _ _ _ names_NoDup attrs_NoDup
              files_inj Hin Hr)
    as (l0 & l' & acc0 & w0 & _ & _ & _ & Hm & Hrr & ->).
  rewrite item_miss by done. cbv zeta.
  destruct (yf_attr (calls w0) ticker attr) as [reply'|e']; [|done].
  simpl in Hrr. injection Hrr as <-. by rewrite Hv.
Qed.

(** A table with rows and columns that came back and could be written is in
    the file of its sub-kind when the loop is over, also when a later turn
    raised. *)
Lemma loop_reply_written (acc : gmap string DataFrame) (name attr : string)
    (df : DataFrame) (w : World) :
  (name, attr) ∈ l →
  (GetAttr ticker attr, Ok (RTable (Some df)))
    ∈ new_calls w (for_each item l acc w).2 →
  (∃ v, value (Some df) = Ok v) →
  empty df = false →
  file name ∉ denied w →
  files (for_each item l acc w).2 !! file name
  = Some (to_csv_text with_index df).
Proof.
  intros Hin Hr [v Hv] Hne Hd.
  destruct (loop_entry_inv _ _ _ _ _ _ _ _ _ _ _ _ _ _ names_NoDup attrs_NoDup
              files_inj Hin Hr)
    as (l0 & l' & acc0 & w0 & Hl & Hd0 & _ & Hm & Hrr & ->).
  rewrite item_miss by done. cbv zeta.
  destruct (yf_attr (calls w0) ticker attr) as [reply'|e']; [|done].
  simpl in Hrr. injection Hrr as <-. rewrite Hv. simpl. rewrite Hne. simpl.
  rewrite Hd0. destruct (decide _); [done |].
  match goal with |- files (for_each _ _ ?a ?w1).2 !! _ = _ =>
    pose proof (for_each_frame yf_attr to_csv_text file with_index decode value
                  ticker use_cache l' a w1) as F1
  end.
  erewrite frame_other_file; [| exact F1 |].
  - simpl. by rewrite lookup_insert_eq.
  - intros n' a' Hl' Heq.
    assert (Hn' : n' ∈ l'.*1) by (apply list_elem_of_fmap; by exists (n', a')).
    pose proof names_NoDup as Hnd. rewrite Hl, fmap_app in Hnd. simpl in Hnd.
    apply NoDup_app in Hnd as (_ & _ & Hnd). apply NoDup_cons in Hnd as [Hnot _].
    apply files_inj in Heq; [by subst | |].
    + rewrite Hl, fmap_app. apply elem_of_app. right. simpl.
      apply elem_of_cons. by right.
    + rewrite Hl, fmap_app. apply elem_of_app. right. simpl.
      apply elem_of_cons. by left.
Qed.

End BundleReplies.

(** ** The accessors, whatever their outcome *)

Lemma sublist_same_length {A : Type} (l1 l2 : list A) :
  l1 `sublist_of` l2 → length l2 ≤ length l1 → l1 = l2.
Proof.
  induction 1 as [|x l1 l2 H IH|x l1 l2 H IH]; simpl; intros Hlen.
  - done.
  - f_equal. apply IH. lia.
  - apply sublist_length in H. lia.
Qed.

Section Extras.

Variable RAW_DATA_DIR : Path.
Variable yf_download : History → string → string → option string → Result DataFrame.
Variable yf_attr : History → string → string → Result (option DataFrame).
Variable yf_info : History → string → Result (list (string * Json)).
Variable to_csv_text : bool → DataFrame → string.
Variable read_csv_text : option nat → bool → string → Result DataFrame.
Variable to_datetime : Axis → Result Axis.
Variable getitem : DataFrame → string → Result Selection.
Variable json_dumps : nat → Json → string.
Variable json_loads : string → Result Json.

Local Abbreviation stock :=
  (get_stock_data RAW_DATA_DIR yf_download to_csv_text read_csv_text).
Local Abbreviation financials :=
  (get_company_financials RAW_DATA_DIR yf_attr to_csv_text read_csv_text
     to_datetime).
Local Abbreviation quarterly :=
  (get_quarterly_financials RAW_DATA_DIR yf_attr to_csv_text read_csv_text
     to_datetime).
Local Abbreviation info :=
  (get_company_info RAW_DATA_DIR yf_info json_dumps json_loads).
Local Abbreviation holders :=
  (get_holders_and_recommendations RAW_DATA_DIR yf_attr to_csv_text
     read_csv_text).
Local Abbreviation treasury :=
  (get_treasury_yield RAW_DATA_DIR yf_download to_csv_text read_csv_text getitem).
Local Abbreviation stock_file := (stock_cache_file RAW_DATA_DIR).
Local Abbreviation financials_file := (financials_cache_file RAW_DATA_DIR).
Local Abbreviation quarterly_file := (quarterly_cache_file RAW_DATA_DIR).
Local Abbreviation info_file := (info_cache_file RAW_DATA_DIR).
Local Abbreviation holders_file := (holders_cache_file RAW_DATA_DIR).
Local Abbreviation statement_adapter :=
  (statement_decode read_csv_text to_datetime).

(** *** Which files a call can change *)

Lemma stock_own_file (ticker start : string) (end_ : option string)
    (use_cache : bool) (w : World) (q : Path) :
  files (stock ticker start end_ use_cache w).2 !! q = files w !! q
  ∨ q = stock_file ticker.
Proof.
  destruct (hit_or_miss use_cache (stock_file ticker) w) as [[-> [txt Ht]] | Hm].
  - rewrite (stock_hit _ _ _ _ _ _ _ txt) by done. by left.
  - rewrite stock_miss by done. cbv zeta.
    destruct (result_bind _ _) as [df|]; [|by left].
    destruct (negb (empty df)); [|by left].
    destruct (decide _); [by left |]. simpl.
    destruct (decide (q = stock_file ticker)) as [-> | Hq]; [by right | left].
    by rewrite lookup_insert_ne.
Qed.

Lemma info_own_file (ticker : string) (use_cache : bool) (w : World) (q : Path) :
  files (info ticker use_cache w).2 !! q = files w !! q
  ∨ q = info_file ticker.
Proof.
  destruct (hit_or_miss use_cache (info_file ticker) w) as [[-> [txt Ht]] | Hm].
  - rewrite (info_hit _ _ _ _ _ txt) by done. by left.
  - rewrite info_miss by done. cbv zeta.
    destruct (yf_info _ _) as [d|]; [|by left].
    destruct (truthy d); [|by left].
    destruct (decide _); [by left |]. simpl.
    destruct (decide (q = info_file ticker)) as [-> | Hq]; [by right | left].
    by rewrite lookup_insert_ne.
Qed.

Lemma frame_own_files (file : string → Path) (with_index : bool)
    (ticker : string) (use_cache : bool) (l : list (string * string))
    (w w' : World) (q : Path) :
  loop_frame to_csv_text file with_index ticker use_cache l w w' →
  files w' !! q = files w !! q
  ∨ ∃ name attr, (name, attr) ∈ l ∧ q = file name.
Proof.
  intros (_ & new & _ & _ & Hf).
  destruct (Hf q) as [? | (n & a & ? & Hin & -> & _)]; [by left | right; eauto].
Qed.


(** *** Which remote calls a call can make *)





(** *** The keys of a bundle *)

Lemma loop_keys (file : string → Path) (with_index : bool)
    (decode : string → Result DataFrame)
    (value : option DataFrame → Result DataFrame)
    (ticker : string) (use_cache : bool) (l : list (string * string))
    (b : gmap string DataFrame) (w w' : World) (name : string) :
  NoDup l.*1 → NoDup l.*2 →
  (∀ n1 n2, n1 ∈ l.*1 → n2 ∈ l.*1 → file n1 = file n2 → n1 = n2) →
  for_each (bundle_item yf_attr to_csv_text file with_index decode value
              ticker use_cache) l ∅ w = (Ok b, w') →
  is_Some (b !! name) ↔ name ∈ l.*1.
Proof.
  intros Hn Ha Hinj Hrun.
  destruct (for_each_ok _ _ _ _ _ _ _ _ _ _ _ _ _ Hn Ha Hinj Hrun) as [Hout Hres].
  split.
  - intros Hs. destruct (decide (name ∈ l.*1)) as [|Hno]; [done |].
    rewrite (Hout _ Hno), lookup_empty in Hs. by destruct Hs.
  - intros ([n a] & -> & Hin)%list_elem_of_fmap. simpl.
    destruct (Hres n a Hin) as [(_ & s & df & _ & _ & Hb & _)
                               | (_ & reply & v & _ & _ & Hb & _)]; eauto.
Qed.

(** X3.  The bundle a call returns has exactly the three keys of its kind,
    whatever was cached and whatever the provider answered: ["income_stmt"],
    ["balance_sheet"] and ["cashflow"] for the annual and the quarterly
    statements, ["institutional_holders"], ["major_holders"] and
    ["recommendations"] for the holders. *)
Theorem bundle_keys (ticker : string) (use_cache : bool)
    (b : gmap string DataFrame) (w w' : World) (name : string) :
  (financials ticker use_cache w = (Ok b, w')
   ∨ quarterly ticker use_cache w = (Ok b, w') →
   is_Some (b !! name) ↔ name ∈ ["income_stmt"; "balance_sheet"; "cashflow"])
  ∧ (holders ticker use_cache w = (Ok b, w') →
     is_Some (b !! name)
     ↔ name ∈ ["institutional_holders"; "major_holders"; "recommendations"]).
Proof.
  pose proof types_NoDup as (N1 & N2 & N3 & N4 & N5 & N6).
  split; [intros [Hrun | Hrun] | intros Hrun].
  - rewrite get_company_financials_loop in Hrun.
    exact (loop_keys _ _ _ _ _ _ _ _ _ _ name N1 N2
             (financials_files_inj RAW_DATA_DIR ticker) Hrun).
  - rewrite get_quarterly_financials_loop in Hrun.
    exact (loop_keys _ _ _ _ _ _ _ _ _ _ name N3 N4
             (quarterly_files_inj RAW_DATA_DIR ticker) Hrun).
  - rewrite get_holders_and_recommendations_loop in Hrun.
    exact (loop_keys _ _ _ _ _ _ _ _ _ _ name N5 N6
             (holders_files_inj RAW_DATA_DIR ticker) Hrun).
Qed.

(** *** The remote calls of a bundle that returns *)




(** *** A cached price series *)

(** X5.  The cache entry of a price series is keyed by the identifier
    alone: when the file exists, a call with [use_cache = true] returns the
    same table whatever [start] and [end] it is given, makes no remote call
    and leaves the world as it is; so does [get_treasury_yield]. *)
Theorem cached_prices_ignore_dates (ticker start start' : string)
    (end_ end_' : option string) (w : World) :
  is_Some (files w !! stock_file ticker) →
  stock ticker start' end_' true w = stock ticker start end_ true w
  ∧ treasury ticker start' end_' true w = treasury ticker start end_ true w
  ∧ (stock ticker start end_ true w).2 = w
  ∧ (treasury ticker start end_ true w).2 = w.
Proof.
  intros [txt Ht]. unfold get_treasury_yield. rewrite !bind_eq.
  rewrite !(stock_hit _ _ _ _ _ _ _ txt) by done.
  repeat split. by destruct (read_csv_text _ _ _).
Qed.

(** *** Entries that do not parse *)

Lemma loop_unreadable (file : string → Path) (with_index : bool)
    (decode : string → Result DataFrame)
    (value : option DataFrame → Result DataFrame)
    (ticker : string) (l : list (string * string))
    (name attr txt : string) (e : Exc) (w : World) :
  NoDup l.*1 → NoDup l.*2 →
  (∀ n1 n2, n1 ∈ l.*1 → n2 ∈ l.*1 → file n1 = file n2 → n1 = n2) →
  (name, attr) ∈ l →
  files w !! file name = Some txt →
  decode txt = Raise e →
  (∃ e', (for_each (bundle_item yf_attr to_csv_text file with_index decode
                      value ticker true) l ∅ w).1 = Raise e')
  ∧ files (for_each (bundle_item yf_attr to_csv_text file with_index decode
                       value ticker true) l ∅ w).2 !! file name = Some txt.
Proof.
  intros Hn Ha Hinj Hin Hf Hd. split.
  - destruct (for_each _ l ∅ w) as [[b|e'] w'] eqn:Hrun; [|by eauto]. exfalso.
    destruct (for_each_ok _ _ _ _ _ _ _ _ _ _ _ _ _ Hn Ha Hinj Hrun) as [_ Hres].
    destruct (Hres name attr Hin) as [(_ & s & df & Hs & Hdec & _) | (Hc & _)].
    + congruence.
    + apply Hc. split; [done | eauto].
  - pose proof (for_each_frame yf_attr to_csv_text file with_index decode value
                  ticker true l ∅ w) as (_ & new & _ & _ & Hfr).
    destruct (Hfr (file name))
      as [-> | (n & a & df & _ & _ & _ & _ & _ & Hnone)]; [done |].
    rewrite Hnone in Hf; done.
Qed.

(** X6.  An entry that does not parse is fatal and is never repaired by a
    call with [use_cache = true].  For the price series and the metadata
    the exception of the parser is the outcome of the call, no remote call
    is made and the world is as before.  For a bundle, one sub-kind whose
    file does not parse makes the whole call raise, whatever the state of
    the other two, and the file is still there afterwards. *)
Theorem unreadable_entry_is_fatal (ticker txt : string) (e : Exc) (w : World) :
  (files w !! stock_file ticker = Some txt →
   read_csv_text (Some 0%nat) true txt = Raise e →
   ∀ start end_, stock ticker start end_ true w = (Raise e, w))
  ∧ (files w !! info_file ticker = Some txt →
     json_loads txt = Raise e →
     info ticker true w = (Raise e, w))
  ∧ (∀ name attr, (name, attr) ∈ financials_types →
     files w !! financials_file ticker name = Some txt →
     read_csv_text (Some 0%nat) false txt = Raise e →
     (∃ e', (financials ticker true w).1 = Raise e')
     ∧ files (financials ticker true w).2 !! financials_file ticker name
       = Some txt)
  ∧ (∀ name attr, (name, attr) ∈ quarterly_types →
     files w !! quarterly_file ticker name = Some txt →
     read_csv_text (Some 0%nat) false txt = Raise e →
     (∃ e', (quarterly ticker true w).1 = Raise e')
     ∧ files (quarterly ticker true w).2 !! quarterly_file ticker name
       = Some txt)
  ∧ (∀ name attr, (name, attr) ∈ holders_types →
     files w !! holders_file ticker name = Some txt →
     read_csv_text None false txt = Raise e →
     (∃ e', (holders ticker true w).1 = Raise e')
     ∧ files (holders ticker true w).2 !! holders_file ticker name = Some txt).
Proof.
  pose proof types_NoDup as (N1 & N2 & N3 & N4 & N5 & N6).
  split; [|split; [|split; [|split]]].
  - intros Hf Hd start end_. rewrite (stock_hit _ _ _ _ _ _ _ txt) by done.
    by rewrite Hd.
  - intros Hf Hd. rewrite (info_hit _ _ _ _ _ txt) by done. by rewrite Hd.
  - intros name attr Hin Hf Hd. rewrite get_company_financials_loop.
    apply (loop_unreadable _ _ _ _ _ _ name attr txt e w N1 N2
             (financials_files_inj RAW_DATA_DIR ticker) Hin Hf).
    unfold statement_decode. by rewrite Hd.
  - intros name attr Hin Hf Hd. rewrite get_quarterly_financials_loop.
    apply (loop_unreadable _ _ _ _ _ _ name attr txt e w N3 N4
             (quarterly_files_inj RAW_DATA_DIR ticker) Hin Hf).
    unfold statement_decode. by rewrite Hd.
  - intros name attr Hin Hf Hd. rewrite get_holders_and_recommendations_loop.
    exact (loop_unreadable _ _ _ _ _ _ name attr txt e w N5 N6
             (holders_files_inj RAW_DATA_DIR ticker) Hin Hf Hd).
Qed.

(** *** A call that does not use the cache *)

Lemma loop_refresh (file : string → Path) (with_index : bool)
    (decode : string → Result DataFrame)
    (value : option DataFrame → Result DataFrame)
    (ticker : string) (l : list (string * string))
    (b : gmap string DataFrame) (w w' : World) (name attr : string)
    (df : DataFrame) :
  NoDup l.*1 → NoDup l.*2 →
  (∀ n1 n2, n1 ∈ l.*1 → n2 ∈ l.*1 → file n1 = file n2 → n1 = n2) →
  value_is_reply value →
  for_each (bundle_item yf_attr to_csv_text file with_index decode value
              ticker false) l ∅ w = (Ok b, w') →
  (name, attr) ∈ l →
  b !! name = Some df → empty df = false →
  files w' !! file name = Some (to_csv_text with_index df).
Proof.
  intros Hn Ha Hinj Hv Hrun Hin Hb Hne.
  destruct (for_each_ok _ _ _ _ _ _ _ _ _ _ _ _ _ Hn Ha Hinj Hrun) as [_ Hres].
  destruct (Hres name attr Hin) as [([? _] & _) | (_ & reply & v & _ & Hval & Hb' & _ & Hf)];
    [done |].
  rewrite Hb in Hb'. injection Hb' as <-.
  rewrite (Hv _ _ Hval Hne) in Hf. simpl in Hf. by rewrite Hne in Hf.
Qed.

(** X7.  A call with [use_cache = false] refreshes the cache: when it
    returns a record that is not empty, the file of the key holds the
    encoding of that record afterwards, whatever it held before (for a
    bundle: the file of each sub-kind bound to a table with rows and
    columns). *)
Theorem refresh_replaces_entry (ticker : string) (w w' : World) :
  (∀ start end_ df,
     stock ticker start end_ false w = (Ok df, w') → empty df = false →
     files w' !! stock_file ticker = Some (to_csv_text true df))
  ∧ (∀ v,
       info ticker false w = (Ok v, w') → v ≠ JDict [] →
       files w' !! info_file ticker = Some (json_dumps 4 v))
  ∧ (∀ b name attr df,
       financials ticker false w = (Ok b, w') →
       (name, attr) ∈ financials_types →
       b !! name = Some df → empty df = false →
       files w' !! financials_file ticker name = Some (to_csv_text true df))
  ∧ (∀ b name attr df,
       quarterly ticker false w = (Ok b, w') →
       (name, attr) ∈ quarterly_types →
       b !! name = Some df → empty df = false →
       files w' !! quarterly_file ticker name = Some (to_csv_text true df))
  ∧ (∀ b name attr df,
       holders ticker false w = (Ok b, w') →
       (name, attr) ∈ holders_types →
       b !! name = Some df → empty df = false →
       files w' !! holders_file ticker name = Some (to_csv_text false df)).
Proof.
  pose proof types_NoDup as (N1 & N2 & N3 & N4 & N5 & N6).
  split; [|split; [|split; [|split]]].
  - intros start end_ df. rewrite stock_miss by (by left). cbv zeta.
    destruct (result_bind _ _) as [df'|]; [|done].
    destruct (empty df') eqn:He; simpl.
    + intros [= -> _]. congruence.
    + destruct (decide _); [done |]. intros [= -> <-] _. simpl.
      by rewrite lookup_insert_eq.
  - intros v. rewrite info_miss by (by left). cbv zeta.
    destruct (yf_info _ _) as [d|]; [|done].
    destruct d as [|x d]; simpl.
    + by intros [= <- _].
    + destruct (decide _); [done |]. intros [= <- <-] _. simpl.
      by rewrite lookup_insert_eq.
  - intros b name attr df Hrun. rewrite get_company_financials_loop in Hrun.
    exact (loop_refresh _ _ _ _ _ _ _ _ _ name attr df N1 N2
             (financials_files_inj RAW_DATA_DIR ticker)
             statement_value_is_reply Hrun).
  - intros b name attr df Hrun. rewrite get_quarterly_financials_loop in Hrun.
    exact (loop_refresh _ _ _ _ _ _ _ _ _ name attr df N3 N4
             (quarterly_files_inj RAW_DATA_DIR ticker)
             statement_value_is_reply Hrun).
  - intros b name attr df Hrun.
    rewrite get_holders_and_recommendations_loop in Hrun.
    exact (loop_refresh _ _ _ _ _ _ _ _ _ name attr df N5 N6
             (holders_files_inj RAW_DATA_DIR ticker)
             holder_value_is_reply Hrun).
Qed.

(** *** A provider that fails *)

(** X8.  An exception of the remote provider is not caught: it is the
    outcome of the call.  For the price series and the metadata the world
    afterwards is the world before with the failed call in the log, so no
    file is touched; for a bundle the call raises the exception of the
    failed sub-kind. *)
Theorem provider_exception_propagates (ticker : string) (use_cache : bool)
    (ex : Exc) (w : World) :
  (∀ start end_,
     (Download ticker start end_, Raise ex)
       ∈ new_calls w (stock ticker start end_ use_cache w).2 →
     stock ticker start end_ use_cache w
     = (Raise ex, log_call (Download ticker start end_, Raise ex) w))
  ∧ ((GetInfo ticker, Raise ex) ∈ new_calls w (info ticker use_cache w).2 →
     info ticker use_cache w
     = (Raise ex, log_call (GetInfo ticker, Raise ex) w))
  ∧ (∀ name attr, (name, attr) ∈ financials_types →
     (GetAttr ticker attr, Raise ex)
       ∈ new_calls w (financials ticker use_cache w).2 →
     (financials ticker use_cache w).1 = Raise ex)
  ∧ (∀ name attr, (name, attr) ∈ quarterly_types →
     (GetAttr ticker attr, Raise ex)
       ∈ new_calls w (quarterly ticker use_cache w).2 →
     (quarterly ticker use_cache w).1 = Raise ex)
  ∧ (∀ name attr, (name, attr) ∈ holders_types →
     (GetAttr ticker attr, Raise ex)
       ∈ new_calls w (holders ticker use_cache w).2 →
     (holders ticker use_cache w).1 = Raise ex).
Proof.
  pose proof types_NoDup as (N1 & N2 & N3 & N4 & N5 & N6).
  split; [|split; [|split; [|split]]].
  - intros start end_.
    destruct (hit_or_miss use_cache (stock_file ticker) w)
      as [[-> [txt Ht]] | Hm].
    { rewrite (stock_hit _ _ _ _ _ _ _ txt) by done. simpl.
      rewrite new_calls_refl. by intros ?%elem_of_nil. }
    rewrite stock_miss_calls by done. intros Hin%list_elem_of_singleton.
    rewrite stock_miss by done. cbv zeta.
    destruct (yf_download _ _ _ _) as [df0|ex']; simpl in *; [done |].
    by injection Hin as ->.
  - destruct (hit_or_miss use_cache (info_file ticker) w)
      as [[-> [txt Ht]] | Hm].
    { rewrite (info_hit _ _ _ _ _ txt) by done. simpl.
      rewrite new_calls_refl. by intros ?%elem_of_nil. }
    rewrite info_miss_calls by done. intros Hin%list_elem_of_singleton.
    rewrite info_miss by done. cbv zeta.
    destruct (yf_info _ _) as [d|ex']; simpl in *; [done |].
    by injection Hin as ->.
  - intros name attr Hin. rewrite get_company_financials_loop.
    exact (loop_provider_error _ _ _ _ _ _ _ _ _ N1 N2
             (financials_files_inj RAW_DATA_DIR ticker) ∅ name attr ex w Hin).
  - intros name attr Hin. rewrite get_quarterly_financials_loop.
    exact (loop_provider_error _ _ _ _ _ _ _ _ _ N3 N4
             (quarterly_files_inj RAW_DATA_DIR ticker) ∅ name attr ex w Hin).
  - intros name attr Hin. rewrite get_holders_and_recommendations_loop.
    exact (loop_provider_error _ _ _ _ _ _ _ _ _ N5 N6
             (holders_files_inj RAW_DATA_DIR ticker) ∅ name attr ex w Hin).
Qed.

(** X9.  The statement accessors test [df.empty] on what the provider
    hands back without asking whether there is a table: when the provider
    gives [None] for a sub-kind of the annual or the quarterly statements,
    the call raises [AttributeError]. *)
Theorem none_statement_is_attribute_error (ticker : string) (use_cache : bool)
    (name attr : string) (w : World) :
  ((name, attr) ∈ financials_types →
   (GetAttr ticker attr, Ok (RTable None))
     ∈ new_calls w (financials ticker use_cache w).2 →
   (financials ticker use_cache w).1 = Raise AttributeError)
  ∧ ((name, attr) ∈ quarterly_types →
     (GetAttr ticker attr, Ok (RTable None))
       ∈ new_calls w (quarterly ticker use_cache w).2 →
     (quarterly ticker use_cache w).1 = Raise AttributeError).
Proof.
  pose proof types_NoDup as (N1 & N2 & N3 & N4 & N5 & N6).
  split; intros Hin.
  - rewrite get_company_financials_loop. intros Hr.
    exact (loop_value_error _ _ _ _ _ _ _ _ _ N1 N2
             (financials_files_inj RAW_DATA_DIR ticker) ∅ name attr None
             AttributeError w Hin Hr eq_refl).
  - rewrite get_quarterly_financials_loop. intros Hr.
    exact (loop_value_error _ _ _ _ _ _ _ _ _ N3 N4
             (quarterly_files_inj RAW_DATA_DIR ticker) ∅ name attr None
             AttributeError w Hin Hr eq_refl).
Qed.

(** *** An empty answer where there is an entry *)

(** X10.  An entry outlives an empty answer of the provider: when a call
    with [use_cache = false] gets a table without rows or columns (an empty
    mapping for the metadata) while the key has an entry, the entry stays,
    and the next call with [use_cache = true] returns what that old entry
    holds, whatever dates it is given. *)
Theorem stale_entry_served_after_empty_refresh (ticker txt : string) (w : World) :
  (∀ start end_ df0,
     files w !! stock_file ticker = Some txt →
     (Download ticker start end_, Ok (RTable (Some df0)))
       ∈ new_calls w (stock ticker start end_ false w).2 →
     empty df0 = true →
     ∀ start' end_',
       stock ticker start' end_' true (stock ticker start end_ false w).2
       = (read_csv_text (Some 0%nat) true txt,
          (stock ticker start end_ false w).2))
  ∧ (files w !! info_file ticker = Some txt →
     (GetInfo ticker, Ok (RInfo [])) ∈ new_calls w (info ticker false w).2 →
     info ticker true (info ticker false w).2
     = (json_loads txt, (info ticker false w).2)).
Proof.
  split.
  - intros start end_ df0 Hf Hin He start' end_'.
    apply stock_hit. by rewrite (stock_empty_fetch _ _ _ _ _ _ _ _ _ _ Hin He).
  - intros Hf Hin. apply info_hit.
    by rewrite (info_empty_fetch _ _ _ _ _ _ _ Hin).
Qed.

(** *** File names *)



Lemma statement_file_kind (ticker name attr : string) :
  (name, attr) ∈ financials_types →
  ∃ k, financials_file ticker name
       = key_path RAW_DATA_DIR (MkKey ticker (AnnualStatements k)).
Proof.
  intros Hin. destruct (statement_names name) as [k ->]; [|by exists k].
  left. apply list_elem_of_fmap. by exists (name, attr).
Qed.

Lemma quarterly_file_kind (ticker name attr : string) :
  (name, attr) ∈ quarterly_types →
  ∃ k, quarterly_file ticker name
       = key_path RAW_DATA_DIR (MkKey ticker (QuarterlyStatements k)).
Proof.
  intros Hin. destruct (statement_names name) as [k ->]; [|by exists k].
  right. apply list_elem_of_fmap. by exists (name, attr).
Qed.

Lemma holders_file_kind (ticker name attr : string) :
  (name, attr) ∈ holders_types →
  ∃ k, holders_file ticker name
       = key_path RAW_DATA_DIR (MkKey ticker (HoldersAndRecommendations k)).
Proof.
  intros Hin. destruct (holder_names name) as [k ->]; [|by exists k].
  apply list_elem_of_fmap. by exists (name, attr).
Qed.

(** X12.  The accessors of one identifier do not disturb each other: a
    call, whether it returns or raises, leaves the files of the other four
    data kinds of its identifier as they were. *)
Theorem other_kinds_untouched (id start : string) (end_ : option string)
    (use_cache : bool) (kind : DataKind) (w : World) :
  (kind ≠ PriceSeries →
   files (stock id start end_ use_cache w).2
     !! key_path RAW_DATA_DIR (MkKey id kind)
   = files w !! key_path RAW_DATA_DIR (MkKey id kind))
  ∧ ((∀ sub, kind ≠ AnnualStatements sub) →
     files (financials id use_cache w).2
       !! key_path RAW_DATA_DIR (MkKey id kind)
     = files w !! key_path RAW_DATA_DIR (MkKey id kind))
  ∧ (kind ≠ CompanyInfo →
     files (info id use_cache w).2 !! key_path RAW_DATA_DIR (MkKey id kind)
     = files w !! key_path RAW_DATA_DIR (MkKey id kind))
  ∧ ((∀ sub, kind ≠ QuarterlyStatements sub) →
     files (quarterly id use_cache w).2
       !! key_path RAW_DATA_DIR (MkKey id kind)
     = files w !! key_path RAW_DATA_DIR (MkKey id kind))
  ∧ ((∀ sub, kind ≠ HoldersAndRecommendations sub) →
     files (holders id use_cache w).2
       !! key_path RAW_DATA_DIR (MkKey id kind)
     = files w !! key_path RAW_DATA_DIR (MkKey id kind)).
Proof.
  split; [|split; [|split; [|split]]]; intros Hk.
  - destruct (stock_own_file id start end_ use_cache w
                (key_path RAW_DATA_DIR (MkKey id kind))) as [H | H]; [done |].
    by apply (key_path_same_id _ _ kind PriceSeries) in H.
  - pose proof (for_each_frame yf_attr to_csv_text (financials_file id) true
                  statement_adapter statement_value id use_cache
                  financials_types ∅ w) as F.
    rewrite <- get_company_financials_loop in F.
    destruct (frame_own_files _ _ _ _ _ _ _
                (key_path RAW_DATA_DIR (MkKey id kind)) F)
      as [H | (name & attr & Hin & H)]; [done |].
    destruct (statement_file_kind id name attr Hin) as [k Ek].
    rewrite Ek in H. apply key_path_same_id in H. by destruct (Hk k).
  - destruct (info_own_file id use_cache w
                (key_path RAW_DATA_DIR (MkKey id kind))) as [H | H]; [done |].
    by apply (key_path_same_id _ _ kind CompanyInfo) in H.
  - pose proof (for_each_frame yf_attr to_csv_text (quarterly_file id) true
                  statement_adapter statement_value id use_cache
                  quarterly_types ∅ w) as F.
    rewrite <- get_quarterly_financials_loop in F.
    destruct (frame_own_files _ _ _ _ _ _ _
                (key_path RAW_DATA_DIR (MkKey id kind)) F)
      as [H | (name & attr & Hin & H)]; [done |].
    destruct (quarterly_file_kind id name attr Hin) as [k Ek].
    rewrite Ek in H. apply key_path_same_id in H. by destruct (Hk k).
  - pose proof (for_each_frame yf_attr to_csv_text (holders_file id) false
                  (read_csv_text None false) holder_value id use_cache
                  holders_types ∅ w) as F.
    rewrite <- get_holders_and_recommendations_loop in F.
    destruct (frame_own_files _ _ _ _ _ _ _
                (key_path RAW_DATA_DIR (MkKey id kind)) F)
      as [H | (name & attr & Hin & H)]; [done |].
    destruct (holders_file_kind id name attr Hin) as [k Ek].
    rewrite Ek in H. apply key_path_same_id in H. by destruct (Hk k).
Qed.

(** *** What a fetch returns and what it leaves behind *)

(** X13.  A price table that was fetched is returned as the provider gave
    it, up to the labels of its columns: same rows, same values, same
    number of columns; and when the columns of the provider's table are a
    flat index, the very same table. *)
Theorem fetched_prices_as_provided (ticker start : string)
    (end_ : option string) (use_cache : bool) (df0 df : DataFrame)
    (w w' : World) :
  stock ticker start end_ use_cache w = (Ok df, w') →
  (Download ticker start end_, Ok (RTable (Some df0))) ∈ new_calls w w' →
  index df = index df0 ∧ data df = data df0
  ∧ axis_len (columns df) = axis_len (columns df0)
  ∧ (is_MultiIndex (columns df0) = false → df = df0).
Proof.
  intros Hrun Hin.
  destruct (hit_or_miss use_cache (stock_file ticker) w) as [[-> [txt Ht]] | Hm].
  { rewrite (stock_hit _ _ _ _ _ _ _ txt) in Hrun by done.
    injection Hrun as _ <-. rewrite new_calls_refl in Hin.
    by apply elem_of_nil in Hin. }
  pose proof (stock_miss_calls RAW_DATA_DIR yf_download to_csv_text
                read_csv_text ticker start end_ use_cache w Hm) as Hc.
  rewrite Hrun in Hc. simpl in Hc. rewrite Hc in Hin.
  apply list_elem_of_singleton in Hin.
  rewrite stock_miss in Hrun by done. cbv zeta in Hrun.
  destruct (yf_download _ _ _ _) as [df0'|]; simpl in *; [|done].
  injection Hin as ->.
  assert (Hfl : flatten_columns df0' = Ok df).
  { destruct (flatten_columns df0') as [df1|]; [|done].
    destruct (negb (empty df1)); [|by injection Hrun as ->].
    destruct (decide _); [done |]. by injection Hrun as ->. }
  clear Hrun. unfold flatten_columns, set_columns in Hfl.
  destruct (is_MultiIndex (columns df0')).
  - destruct (droplevel1 (columns df0')) as [cols|]; simpl in Hfl; [|done].
    destruct (axis_len cols =? axis_len (columns df0'))%nat eqn:E; [|done].
    injection Hfl as <-. simpl. apply Nat.eqb_eq in E. done.
  - injection Hfl as <-. done.
Qed.

(** X14.  What a bundle call has fetched and written stays in the cache
    when the call fails later: a table with rows and columns that came back
    for a sub-kind whose file can be written is in that file when the call
    is over, whether the call returns or raises on a later sub-kind. *)
Theorem fetched_tables_stay_cached (ticker : string) (use_cache : bool)
    (name attr : string) (df : DataFrame) (w : World) :
  ((name, attr) ∈ financials_types →
   (GetAttr ticker attr, Ok (RTable (Some df)))
     ∈ new_calls w (financials ticker use_cache w).2 →
   empty df = false →
   financials_file ticker name ∉ denied w →
   files (financials ticker use_cache w).2 !! financials_file ticker name
   = Some (to_csv_text true df))
  ∧ ((name, attr) ∈ quarterly_types →
     (GetAttr ticker attr, Ok (RTable (Some df)))
       ∈ new_calls w (quarterly ticker use_cache w).2 →
     empty df = false →
     quarterly_file ticker name ∉ denied w →
     files (quarterly ticker use_cache w).2 !! quarterly_file ticker name
     = Some (to_csv_text true df))
  ∧ ((name, attr) ∈ holders_types →
     (GetAttr ticker attr, Ok (RTable (Some df)))
       ∈ new_calls w (holders ticker use_cache w).2 →
     empty df = false →
     holders_file ticker name ∉ denied w →
     files (holders ticker use_cache w).2 !! holders_file ticker name
     = Some (to_csv_text false df)).
Proof.
  pose proof types_NoDup as (N1 & N2 & N3 & N4 & N5 & N6).
  split; [|split]; intros Hin.
  - rewrite get_company_financials_loop. intros Hr Hne Hd.
    apply (loop_reply_written _ _ _ _ _ _ _ _ _ N1 N2
             (financials_files_inj RAW_DATA_DIR ticker) ∅ name attr df w Hin Hr);
      [by exists df | done | done].
  - rewrite get_quarterly_financials_loop. intros Hr Hne Hd.
    apply (loop_reply_written _ _ _ _ _ _ _ _ _ N3 N4
             (quarterly_files_inj RAW_DATA_DIR ticker) ∅ name attr df w Hin Hr);
      [by exists df | done | done].
  - rewrite get_holders_and_recommendations_loop. intros Hr Hne Hd.
    apply (loop_reply_written _ _ _ _ _ _ _ _ _ N5 N6
             (holders_files_inj RAW_DATA_DIR ticker) ∅ name attr df w Hin Hr);
      [| done | done].
    simpl. rewrite Hne. simpl. by exists df.
Qed.

End Extras.

(** ** Where the cache files are *)

(** X15.  For an identifier without path separator the cache file of every
    kind is a direct child of the cache directory, named by the identifier
    followed by the suffix of the kind. *)
Theorem cache_file_under_root (root : Path) (k : CacheKey) :
  has_sep (key_id k) = false →
  key_path root k
  = MkPath (anchor root)
      (parts root ++ [key_id k +:+ kind_suffix (key_kind k)]).
Proof.
  intros H. rewrite key_path_suffix.
  pose proof (kind_suffix_clean (key_kind k)) as [Hs Hk]%clean_suffix_spec.
  apply joinpath_nosep; [by rewrite has_sep_app, H, Hs | by apply keep_part_app].
Qed.

(** X16.  An identifier that starts with a slash takes the cache file out
    of the cache directory: the path is rooted, and it is the same whatever
    the cache directory is. *)
Theorem rooted_identifier_leaves_root (root root' : Path) (id : string)
    (kind : DataKind) :
  key_path root (MkKey ("/" +:+ id) kind)
  = key_path root' (MkKey ("/" +:+ id) kind)
  ∧ anchor (key_path root (MkKey ("/" +:+ id) kind)) ≠ "".
Proof.
  rewrite !key_path_suffix. simpl key_id. simpl key_kind.
  rewrite app_String, app_empty, app_String.
  generalize (id +:+ kind_suffix kind). intros s.
  unfold joinpath, parse_path, splitroot.
  change (Ascii.eqb "/" sep) with true. cbv iota.
  destruct s as [|c1 [|c2 s]]; simpl.
  - done.
  - by destruct (Ascii.eqb c1 sep).
  - destruct (Ascii.eqb c1 sep); [|done]. by destruct (Ascii.eqb c2 sep).
Qed.

(** ** With everything cached the provider is not needed *)

Section Offline.

Variable RAW_DATA_DIR : Path.
Variables yf_download yf_download' :
  History → string → string → option string → Result DataFrame.
Variables yf_attr yf_attr' : History → string → string → Result (option DataFrame).
Variables yf_info yf_info' : History → string → Result (list (string * Json)).
Variable to_csv_text : bool → DataFrame → string.
Variable read_csv_text : option nat → bool → string → Result DataFrame.
Variable to_datetime : Axis → Result Axis.
Variable json_dumps : nat → Json → string.
Variable json_loads : string → Result Json.

Local Abbreviation stock_file := (stock_cache_file RAW_DATA_DIR).
Local Abbreviation financials_file := (financials_cache_file RAW_DATA_DIR).
Local Abbreviation quarterly_file := (quarterly_cache_file RAW_DATA_DIR).
Local Abbreviation info_file := (info_cache_file RAW_DATA_DIR).
Local Abbreviation holders_file := (holders_cache_file RAW_DATA_DIR).



End Offline.

(** ** The confidence score *)

Lemma ltb_leb (x y : float) : (x <? y)%float = true → (x <=? y)%float = true.
Proof.
  rewrite ltb_spec, leb_spec. unfold SFltb, SFleb.
  destruct (SFcompare _ _) as [[]|]; congruence.
Qed.

Lemma SFeqb_refl (f : spec_float) : SFeqb f f = false → f = S754_nan.
Proof.
  destruct f as [s|s| |s m e]; unfold SFeqb, SFcompare; try done.
  - by destruct s.
  - rewrite Z.compare_refl, Pos.compare_cont_refl. by destruct s.
Qed.

(** There is one NaN. *)
Lemma is_nan_inv (x : float) : is_nan x = true → x = nan.
Proof.
  unfold is_nan. rewrite FloatAxioms.eqb_spec.
  intros H%negb_true_iff%SFeqb_refl.
  apply Prim2SF_inj. rewrite H. reflexivity.
Qed.

(** X17.  The confidence score is on the axis of its gauge for every
    coefficient of variation, finite, infinite or NaN: it is a number from
    0 to 100, never NaN.  A coefficient of variation that is NaN (the mean
    and the deviation of the sensitivity values are both zero, or there is
    no value) gives the score 100, because [min(100, nan)] keeps 100. *)
Theorem confidence_on_gauge (cv : float) :
  (0 <=? Plots.confidence cv)%float = true
  ∧ (Plots.confidence cv <=? 100)%float = true
  ∧ (is_nan cv = true → Plots.confidence cv = 100%float).
Proof.
  split; [|split].
  - unfold Plots.confidence, Plots.py_max, Plots.py_min.
    destruct (_ <? 100)%float eqn:E1.
    + destruct (0 <? _)%float eqn:E2; [by apply ltb_leb | reflexivity].
    + reflexivity.
  - unfold Plots.confidence, Plots.py_max, Plots.py_min.
    destruct (_ <? 100)%float eqn:E1.
    + destruct (0 <? _)%float eqn:E2; [by apply ltb_leb | reflexivity].
    + reflexivity.
  - intros ->%is_nan_inv. reflexivity.
Qed.

(** ** The properties on examples *)

(** The annual statements of ["ACME"] with the balance sheet cached: the
    bundle has the key ["cashflow"]. *)
Lemma bundle_keys_witness :
  Stub.financials "ACME" true Stub.partial
  = (Ok Stub.partial_bundle, Stub.partial_after)
  ∧ (is_Some (Stub.partial_bundle !! "cashflow")
     ↔ "cashflow" ∈ ["income_stmt"; "balance_sheet"; "cashflow"]).
Proof.
  assert (H1 : Stub.financials "ACME" true Stub.partial
               = (Ok Stub.partial_bundle, Stub.partial_after))
    by (vm_compute; reflexivity).
  split; [exact H1 |].
  exact (proj1 (bundle_keys data_raw Stub.yf_attr Stub.to_csv_text
                  Stub.read_csv_text Stub.to_datetime "ACME" true
                  Stub.partial_bundle Stub.partial Stub.partial_after
                  "cashflow") (or_introl H1)).
Defined.


(** With the prices of ["ACME"] from 2023 in the cache, a call that asks
    for the prices from 2019 gets those from 2023. *)
Lemma cached_prices_ignore_dates_witness :
  is_Some (files Stub.warm !! stock_cache_file data_raw "ACME")
  ∧ Stub.stock "ACME" "2019-01-01" None true Stub.warm
    = Stub.stock "ACME" "2023-01-01" None true Stub.warm.
Proof.
  assert (H1 : is_Some (files Stub.warm !! stock_cache_file data_raw "ACME"))
    by (exists Stub.prices_text; vm_compute; reflexivity).
  split; [exact H1 |].
  exact (proj1 (cached_prices_ignore_dates data_raw Stub.yf_download
                  Stub.to_csv_text Stub.read_csv_text Stub.getitem "ACME"
                  "2023-01-01" "2019-01-01" None None Stub.warm H1)).
Defined.

(** A price file and a balance sheet file of ["ACME"] that hold a web
    page. *)
Lemma unreadable_entry_is_fatal_witness :
  files Faults.corrupt !! stock_cache_file data_raw "ACME"
  = Some Faults.unreadable
  ∧ Stub.read_csv_text (Some 0%nat) true Faults.unreadable = Raise ParserError
  ∧ Stub.stock "ACME" "2023-01-01" None true Faults.corrupt
    = (Raise ParserError, Faults.corrupt)
  ∧ ("balance_sheet", "balance_sheet") ∈ financials_types
  ∧ files Faults.corrupt !! financials_cache_file data_raw "ACME" "balance_sheet"
    = Some Faults.unreadable
  ∧ Stub.read_csv_text (Some 0%nat) false Faults.unreadable = Raise ParserError
  ∧ ∃ e', (Stub.financials "ACME" true Faults.corrupt).1 = Raise e'.
Proof.
  assert (H1 : files Faults.corrupt !! stock_cache_file data_raw "ACME"
               = Some Faults.unreadable) by (vm_compute; reflexivity).
  assert (H2 : Stub.read_csv_text (Some 0%nat) true Faults.unreadable
               = Raise ParserError) by reflexivity.
  assert (H3 : ("balance_sheet", "balance_sheet") ∈ financials_types)
    by (repeat constructor).
  assert (H4 : files Faults.corrupt
                 !! financials_cache_file data_raw "ACME" "balance_sheet"
               = Some Faults.unreadable) by (vm_compute; reflexivity).
  assert (H5 : Stub.read_csv_text (Some 0%nat) false Faults.unreadable
               = Raise ParserError) by reflexivity.
  pose proof (unreadable_entry_is_fatal data_raw Stub.yf_download Stub.yf_attr
                Stub.yf_info Stub.to_csv_text Stub.read_csv_text
                Stub.to_datetime Stub.json_dumps Stub.json_loads "ACME"
                Faults.unreadable ParserError Faults.corrupt)
    as (T1 & _ & T3 & _).
  split; [exact H1 |]. split; [exact H2 |].
  split; [exact (T1 H1 H2 "2023-01-01" None) |].
  split; [exact H3 |]. split; [exact H4 |]. split; [exact H5 |].
  exact (proj1 (T3 "balance_sheet" "balance_sheet" H3 H4 H5)).
Defined.

(** The prices of ["ACME"] from 2023 are cached and the prices from 2019
    are asked for without the cache: the file holds those from 2019
    afterwards. *)
Lemma refresh_replaces_entry_witness :
  Stub.stock "ACME" "2019-01-01" None false Stub.warm
  = (Ok Stub.acme_prices_2019,
     (Stub.stock "ACME" "2019-01-01" None false Stub.warm).2)
  ∧ empty Stub.acme_prices_2019 = false
  ∧ files Stub.warm !! stock_cache_file data_raw "ACME" = Some Stub.prices_text
  ∧ files (Stub.stock "ACME" "2019-01-01" None false Stub.warm).2
      !! stock_cache_file data_raw "ACME"
    = Some (Stub.to_csv_text true Stub.acme_prices_2019).
Proof.
  assert (H1 : Stub.stock "ACME" "2019-01-01" None false Stub.warm
               = (Ok Stub.acme_prices_2019,
                  (Stub.stock "ACME" "2019-01-01" None false Stub.warm).2))
    by (vm_compute; reflexivity).
  assert (H2 : empty Stub.acme_prices_2019 = false) by reflexivity.
  split; [exact H1 |]. split; [exact H2 |].
  split; [vm_compute; reflexivity |].
  exact (proj1 (refresh_replaces_entry data_raw Stub.yf_download Stub.yf_attr
                  Stub.yf_info Stub.to_csv_text Stub.read_csv_text
                  Stub.to_datetime Stub.json_dumps Stub.json_loads "ACME"
                  Stub.warm
                  (Stub.stock "ACME" "2019-01-01" None false Stub.warm).2)
           "2019-01-01" None Stub.acme_prices_2019 H1 H2).
Defined.

(** The provider is down for the prices, and goes down before the third
    statement. *)
Lemma provider_exception_propagates_witness :
  (Download "ACME" "2023-01-01" None, Raise Faults.timed_out)
    ∈ new_calls Stub.cold
        (get_stock_data data_raw Faults.down_download Stub.to_csv_text
           Stub.read_csv_text "ACME" "2023-01-01" None true Stub.cold).2
  ∧ get_stock_data data_raw Faults.down_download Stub.to_csv_text
      Stub.read_csv_text "ACME" "2023-01-01" None true Stub.cold
    = (Raise Faults.timed_out,
       log_call (Download "ACME" "2023-01-01" None, Raise Faults.timed_out)
         Stub.cold)
  ∧ ("cashflow", "cashflow") ∈ financials_types
  ∧ (GetAttr "ACME" "cashflow", Raise Faults.timed_out)
      ∈ new_calls Stub.cold
          (get_company_financials data_raw Faults.flaky_attr Stub.to_csv_text
             Stub.read_csv_text Stub.to_datetime "ACME" true Stub.cold).2
  ∧ (get_company_financials data_raw Faults.flaky_attr Stub.to_csv_text
       Stub.read_csv_text Stub.to_datetime "ACME" true Stub.cold).1
    = Raise Faults.timed_out.
Proof.
  assert (H1 : (Download "ACME" "2023-01-01" None, Raise Faults.timed_out)
               ∈ new_calls Stub.cold
                   (get_stock_data data_raw Faults.down_download
                      Stub.to_csv_text Stub.read_csv_text "ACME" "2023-01-01"
                      None true Stub.cold).2)
    by (vm_compute; constructor).
  assert (H2 : ("cashflow", "cashflow") ∈ financials_types)
    by (repeat constructor).
  assert (H3 : (GetAttr "ACME" "cashflow", Raise Faults.timed_out)
               ∈ new_calls Stub.cold
                   (get_company_financials data_raw Faults.flaky_attr
                      Stub.to_csv_text Stub.read_csv_text Stub.to_datetime
                      "ACME" true Stub.cold).2)
    by (vm_compute; repeat constructor).
  pose proof (provider_exception_propagates data_raw Faults.down_download
                Faults.flaky_attr Faults.down_info Stub.to_csv_text
                Stub.read_csv_text Stub.to_datetime Stub.json_dumps
                Stub.json_loads "ACME" true Faults.timed_out Stub.cold)
    as (T1 & _ & T3 & _).
  split; [exact H1 |]. split; [exact (T1 "2023-01-01" None H1) |].
  split; [exact H2 |]. split; [exact H3 |].
  exact (T3 "cashflow" "cashflow" H2 H3).
Defined.

(** The provider does not know ["NONE"]: asked for its statements, it
    hands back nothing. *)
Lemma none_statement_is_attribute_error_witness :
  ("income_stmt", "financials") ∈ financials_types
  ∧ (GetAttr "NONE" "financials", Ok (RTable None))
      ∈ new_calls Stub.cold (Stub.financials "NONE" true Stub.cold).2
  ∧ (Stub.financials "NONE" true Stub.cold).1 = Raise AttributeError.
Proof.
  assert (H1 : ("income_stmt", "financials") ∈ financials_types)
    by (repeat constructor).
  assert (H2 : (GetAttr "NONE" "financials", Ok (RTable None))
               ∈ new_calls Stub.cold (Stub.financials "NONE" true Stub.cold).2)
    by (vm_compute; constructor).
  split; [exact H1 |]. split; [exact H2 |].
  exact (proj1 (none_statement_is_attribute_error data_raw Stub.yf_attr
                  Stub.to_csv_text Stub.read_csv_text Stub.to_datetime "NONE"
                  true "income_stmt" "financials" Stub.cold) H1 H2).
Defined.

(** ["ZZZZ"] is delisted and its old price file is there: after a refresh
    that got nothing, the old prices are served. *)
Lemma stale_entry_served_after_empty_refresh_witness :
  files Stub.stale !! stock_cache_file data_raw "ZZZZ" = Some Stub.prices_text
  ∧ (Download "ZZZZ" "2023-01-01" None, Ok (RTable (Some DataFrame_new)))
      ∈ new_calls Stub.stale
          (Stub.stock "ZZZZ" "2023-01-01" None false Stub.stale).2
  ∧ empty DataFrame_new = true
  ∧ Stub.stock "ZZZZ" "2024-01-01" None true
      (Stub.stock "ZZZZ" "2023-01-01" None false Stub.stale).2
    = (Stub.read_csv_text (Some 0%nat) true Stub.prices_text,
       (Stub.stock "ZZZZ" "2023-01-01" None false Stub.stale).2).
Proof.
  assert (H1 : files Stub.stale !! stock_cache_file data_raw "ZZZZ"
               = Some Stub.prices_text) by (vm_compute; reflexivity).
  assert (H2 : (Download "ZZZZ" "2023-01-01" None,
                Ok (RTable (Some DataFrame_new)))
               ∈ new_calls Stub.stale
                   (Stub.stock "ZZZZ" "2023-01-01" None false Stub.stale).2)
    by (vm_compute; constructor).
  assert (H3 : empty DataFrame_new = true) by reflexivity.
  split; [exact H1 |]. split; [exact H2 |]. split; [exact H3 |].
  exact (proj1 (stale_entry_served_after_empty_refresh data_raw
                  Stub.yf_download Stub.yf_info Stub.to_csv_text
                  Stub.read_csv_text Stub.json_dumps Stub.json_loads "ZZZZ"
                  Stub.prices_text Stub.stale)
           "2023-01-01" None DataFrame_new H1 H2 H3 "2024-01-01" None).
Defined.


(** Fetching the prices of ["ACME"] leaves its metadata file alone. *)
Lemma other_kinds_untouched_witness :
  CompanyInfo ≠ PriceSeries
  ∧ files (Stub.stock "ACME" "2023-01-01" None true Stub.cold).2
      !! key_path data_raw (MkKey "ACME" CompanyInfo)
    = files Stub.cold !! key_path data_raw (MkKey "ACME" CompanyInfo).
Proof.
  assert (H1 : CompanyInfo ≠ PriceSeries) by discriminate.
  split; [exact H1 |].
  exact (proj1 (other_kinds_untouched data_raw Stub.yf_download Stub.yf_attr
                  Stub.yf_info Stub.to_csv_text Stub.read_csv_text
                  Stub.to_datetime Stub.json_dumps Stub.json_loads "ACME"
                  "2023-01-01" None true CompanyInfo Stub.cold) H1).
Defined.

(** The prices of ["ACME"] as the provider gave them. *)
Lemma fetched_prices_as_provided_witness :
  Stub.stock "ACME" "2023-01-01" None true Stub.cold
  = (Ok Stub.acme_prices, Stub.warm)
  ∧ (Download "ACME" "2023-01-01" None, Ok (RTable (Some Stub.acme_prices)))
      ∈ new_calls Stub.cold Stub.warm
  ∧ index Stub.acme_prices = index Stub.acme_prices
  ∧ data Stub.acme_prices = data Stub.acme_prices
  ∧ axis_len (columns Stub.acme_prices) = axis_len (columns Stub.acme_prices)
  ∧ (is_MultiIndex (columns Stub.acme_prices) = false
     → Stub.acme_prices = Stub.acme_prices).
Proof.
  assert (H1 : Stub.stock "ACME" "2023-01-01" None true Stub.cold
               = (Ok Stub.acme_prices, Stub.warm)) by (vm_compute; reflexivity).
  assert (H2 : (Download "ACME" "2023-01-01" None,
                Ok (RTable (Some Stub.acme_prices)))
               ∈ new_calls Stub.cold Stub.warm) by (vm_compute; constructor).
  split; [exact H1 |]. split; [exact H2 |].
  exact (fetched_prices_as_provided data_raw Stub.yf_download Stub.to_csv_text
           Stub.read_csv_text "ACME" "2023-01-01" None true Stub.acme_prices
           Stub.acme_prices Stub.cold Stub.warm H1 H2).
Defined.

(** The provider goes down before the cash flow of ["ACME"]: the call
    raises, and the income statement it had fetched is in the cache. *)
Lemma fetched_tables_stay_cached_witness :
  (get_company_financials data_raw Faults.flaky_attr Stub.to_csv_text
     Stub.read_csv_text Stub.to_datetime "ACME" true Stub.cold).1
  = Raise Faults.timed_out
  ∧ ("income_stmt", "financials") ∈ financials_types
  ∧ (GetAttr "ACME" "financials", Ok (RTable (Some Stub.acme_statement)))
      ∈ new_calls Stub.cold
          (get_company_financials data_raw Faults.flaky_attr Stub.to_csv_text
             Stub.read_csv_text Stub.to_datetime "ACME" true Stub.cold).2
  ∧ empty Stub.acme_statement = false
  ∧ (financials_cache_file data_raw "ACME" "income_stmt" ∉ denied Stub.cold)
  ∧ files (get_company_financials data_raw Faults.flaky_attr Stub.to_csv_text
             Stub.read_csv_text Stub.to_datetime "ACME" true Stub.cold).2
      !! financials_cache_file data_raw "ACME" "income_stmt"
    = Some (Stub.to_csv_text true Stub.acme_statement).
Proof.
  assert (H1 : ("income_stmt", "financials") ∈ financials_types)
    by (repeat constructor).
  assert (H2 : (GetAttr "ACME" "financials",
                Ok (RTable (Some Stub.acme_statement)))
               ∈ new_calls Stub.cold
                   (get_company_financials data_raw Faults.flaky_attr
                      Stub.to_csv_text Stub.read_csv_text Stub.to_datetime
                      "ACME" true Stub.cold).2)
    by (vm_compute; constructor).
  assert (H3 : empty Stub.acme_statement = false) by reflexivity.
  assert (H4 : financials_cache_file data_raw "ACME" "income_stmt"
               ∉ denied Stub.cold) by apply not_elem_of_empty.
  split; [vm_compute; reflexivity |].
  split; [exact H1 |]. split; [exact H2 |]. split; [exact H3 |].
  split; [exact H4 |].
  exact (proj1 (fetched_tables_stay_cached data_raw Faults.flaky_attr
                  Stub.to_csv_text Stub.read_csv_text Stub.to_datetime "ACME"
                  true "income_stmt" "financials" Stub.acme_statement
                  Stub.cold) H1 H2 H3 H4).
Defined.

(** The metadata of ["ACME"] is [data/raw/ACME_info.json]. *)
Lemma cache_file_under_root_witness :
  has_sep "ACME" = false
  ∧ key_path data_raw (MkKey "ACME" CompanyInfo)
    = MkPath "" ["data"; "raw"; "ACME_info.json"].
Proof.
  assert (H1 : has_sep "ACME" = false) by reflexivity.
  split; [exact H1 |].
  exact (cache_file_under_root data_raw (MkKey "ACME" CompanyInfo) H1).
Defined.

(** A matrix of zeros has no coefficient of variation: full confidence. *)
Lemma confidence_on_gauge_witness :
  is_nan (0 / 0)%float = true ∧ Plots.confidence (0 / 0)%float = 100%float.
Proof.
  assert (H1 : is_nan (0 / 0)%float = true) by reflexivity.
  split; [exact H1 |].
  exact (proj2 (proj2 (confidence_on_gauge (0 / 0)%float)) H1).
Defined.

